(** * claude-wrapper: the two stdin smoke-test scripts

    A shallow embedding of [app/test-large-stdin.py] and [app/test-stdin.py].
    Both scripts build a fixed request payload around a 60 KiB filler string,
    POST it once to a local chat-completions endpoint and print what came
    back.  The embedding keeps the scripts' shape: Python values are a small
    inductive type, [print], [requests.post] and exceptions live in a state
    and error monad, and everything outside the interpreter (the server, the
    command line, the environment) is a [world] the run is a function of. *)

From Stdlib Require Import String Ascii.
From Stdlib Require Import DecimalString DecimalZ DecimalPos DecimalFacts.
From Stdlib Require Import ZArith NArith Lia Bool List.
Import ListNotations.
Local Open Scope Z_scope.

(** ** Python strings and integers *)

Module Py.

(** A Python [str] is a sequence of Unicode code points. *)
Definition codepoint := N.
Definition pystr := list codepoint.

(** An ASCII literal of the source. *)
Definition lit (s : string) : pystr :=
  map N_of_ascii (list_ascii_of_string s).

(** [len(x)] on a sequence. *)
Definition len {A : Type} (l : list A) : Z := Z.of_nat (length l).

(** [s * n]: the sequence repeated [n] times, empty when [n <= 0]. *)
Definition seq_mul {A : Type} (s : list A) (n : Z) : list A :=
  concat (repeat s (Z.to_nat n)).

(** [s[:k]], with Python's reading of a negative bound. *)
Definition slice_to {A : Type} (s : list A) (k : Z) : list A :=
  firstn (Z.to_nat (if k <? 0 then len s + k else k)) s.

(** [str(n)] for an [int]: decimal digits, with a leading minus sign. *)
Definition str_of_int (n : Z) : pystr :=
  lit (NilZero.string_of_int (Z.to_int n)).

(** [range(n)]. *)
Definition range (n : Z) : list Z :=
  map Z.of_nat (seq 0 (Z.to_nat n)).

(** Number of bytes of a code point, and of a string, in UTF-8. *)
Definition utf8_width (c : codepoint) : Z :=
  if (c <? 0x80)%N then 1
  else if (c <? 0x800)%N then 2
  else if (c <? 0x10000)%N then 3
  else 4.

Definition utf8_len (s : pystr) : Z :=
  fold_right (fun c n => utf8_width c + n) 0 s.

(** Substring test, [sub in s]. *)
Fixpoint starts_with (sub s : pystr) : bool :=
  match sub, s with
  | [], _ => true
  | _ :: _, [] => false
  | a :: sub', b :: s' => (a =? b)%N && starts_with sub' s'
  end.

Fixpoint contains (sub s : pystr) : bool :=
  starts_with sub s ||
  match s with
  | [] => false
  | _ :: s' => contains sub s'
  end.

(** ** Python values

    The values the scripts handle are the ones JSON can carry.  A dict keeps
    its insertion order, as Python's does, so it is an association list.  A
    float is carried by its [repr], the shortest decimal text that denotes
    it; the scripts never compute with one. *)
#[warnings="-register-all"]
Inductive pyval : Type :=
| PNone
| PBool (b : bool)
| PInt (z : Z)
| PFloat (r : pystr)
| PStr (s : pystr)
| PList (l : list pyval)
| PDict (d : list (pystr * pyval)).

(** Induction on a value, with the property at hand for every element of a
    list and every value of a dict. *)
Section PyvalInd.
Variable P : pyval -> Prop.
Hypothesis HNone : P PNone.
Hypothesis HBool : forall b, P (PBool b).
Hypothesis HInt : forall z, P (PInt z).
Hypothesis HFloat : forall r, P (PFloat r).
Hypothesis HStr : forall s, P (PStr s).
Hypothesis HList : forall l, Forall P l -> P (PList l).
Hypothesis HDict : forall d, Forall (fun kv => P (snd kv)) d -> P (PDict d).

Fixpoint pyval_induction (v : pyval) : P v :=
  match v with
  | PNone => HNone
  | PBool b => HBool b
  | PInt z => HInt z
  | PFloat r => HFloat r
  | PStr s => HStr s
  | PList l =>
      HList l ((fix go (l : list pyval) : Forall P l :=
                  match l with
                  | [] => Forall_nil P
                  | x :: l' => Forall_cons x (pyval_induction x) (go l')
                  end) l)
  | PDict d =>
      HDict d ((fix go (d : list (pystr * pyval))
                  : Forall (fun kv => P (snd kv)) d :=
                  match d with
                  | [] => Forall_nil _
                  | kv :: d' =>
                      Forall_cons kv (pyval_induction (snd kv)) (go d')
                  end) d)
  end.
End PyvalInd.

Definition pystr_eqb (a b : pystr) : bool :=
  if list_eq_dec N.eq_dec a b then true else false.

(** [d.get(k)] on the association list of a dict. *)
Fixpoint lookup (k : pystr) (d : list (pystr * pyval)) : option pyval :=
  match d with
  | [] => None
  | (k', v) :: d' => if pystr_eqb k k' then Some v else lookup k d'
  end.

Definition keys (d : list (pystr * pyval)) : list pystr := map fst d.

(** [d[k] = v]: overwrite in place, or append a new key. *)
Fixpoint dict_set (k : pystr) (v : pyval) (d : list (pystr * pyval))
  : list (pystr * pyval) :=
  match d with
  | [] => [(k, v)]
  | (k', v') :: d' =>
      if pystr_eqb k k' then (k', v) :: d' else (k', v') :: dict_set k v d'
  end.

(** ** Exceptions *)

(** The classes that matter here.  All but [KeyboardInterrupt] derive from
    [Exception]; [KeyboardInterrupt] derives from [BaseException] only. *)
Inductive exn_class : Type :=
| ConnectionError
| Timeout
| InvalidJSONError
| JSONDecodeError
| KeyError
| IndexError
| TypeError
| UnicodeEncodeError
| OtherException (name : pystr)
| KeyboardInterrupt.

(** An exception object: its class and [str(e)]. *)
Record exn : Type := mk_exn { exn_cls : exn_class; exn_str : pystr }.

Definition isinstance_Exception (e : exn) : bool :=
  match exn_cls e with
  | KeyboardInterrupt => false
  | _ => true
  end.

(** What evaluating an expression comes to: a value, or an exception. *)
Inductive outcome (A : Type) : Type :=
| Ok (a : A)
| Raise (e : exn).
Arguments Ok {A} a.
Arguments Raise {A} e.

(** A further step on the value of an expression that did not raise. *)
Definition and_then {A B : Type} (r : outcome A) (f : A -> outcome B)
  : outcome B :=
  match r with
  | Ok a => f a
  | Raise e => Raise e
  end.

(** ** Builtins on values

    The texts of the errors are the ones CPython 3.11 gives.  A run depends
    on them only through what the handler prints of them. *)

(** The name of a value's type, as error messages spell it. *)
Definition type_name (v : pyval) : pystr :=
  match v with
  | PNone => lit "NoneType"
  | PBool _ => lit "bool"
  | PInt _ => lit "int"
  | PFloat _ => lit "float"
  | PStr _ => lit "str"
  | PList _ => lit "list"
  | PDict _ => lit "dict"
  end.

Definition not_subscriptable (v : pyval) : exn :=
  mk_exn TypeError
    (lit "'" ++ type_name v ++ lit "' object is not subscriptable").

(** [seq[i]] on a sequence of length [n]: the position read, if any. *)
Definition index_pos (n i : Z) : option nat :=
  let j := if i <? 0 then n + i else i in
  if (0 <=? j) && (j <? n) then Some (Z.to_nat j) else None.

Section Builtins.

(** [repr(v)], the interpreter's; the scripts reach it only when they format
    a value that is neither a string nor an integer, and in the text of a
    [KeyError].  It is left to the world. *)
Variable repr : pyval -> pystr.

(** [v[k]] with a string key. *)
Definition getitem_key (v : pyval) (k : pystr) : outcome pyval :=
  match v with
  | PDict d =>
      match lookup k d with
      | Some x => Ok x
      | None => Raise (mk_exn KeyError (repr (PStr k)))
      end
  | PList _ =>
      Raise (mk_exn TypeError
               (lit "list indices must be integers or slices, not str"))
  | PStr _ =>
      Raise (mk_exn TypeError
               (lit "string indices must be integers, not 'str'"))
  | _ => Raise (not_subscriptable v)
  end.

(** [v[i]] with an integer index.  The keys of a dict decoded from JSON are
    strings, so an integer is never among them. *)
Definition getitem_index (v : pyval) (i : Z) : outcome pyval :=
  match v with
  | PList l =>
      match index_pos (len l) i with
      | Some n =>
          match nth_error l n with
          | Some x => Ok x
          | None => Raise (mk_exn IndexError (lit "list index out of range"))
          end
      | None => Raise (mk_exn IndexError (lit "list index out of range"))
      end
  | PStr s =>
      match index_pos (len s) i with
      | Some n =>
          match nth_error s n with
          | Some c => Ok (PStr [c])
          | None => Raise (mk_exn IndexError (lit "string index out of range"))
          end
      | None => Raise (mk_exn IndexError (lit "string index out of range"))
      end
  | PDict _ => Raise (mk_exn KeyError (repr (PInt i)))
  | _ => Raise (not_subscriptable v)
  end.

(** [v[:k]].  A dict refuses a slice: with a [TypeError] up to CPython 3.11,
    with a [KeyError] since; either is an [Exception]. *)
Definition getitem_slice_to (v : pyval) (k : Z) : outcome pyval :=
  match v with
  | PStr s => Ok (PStr (slice_to s k))
  | PList l => Ok (PList (slice_to l k))
  | PDict _ => Raise (mk_exn TypeError (lit "unhashable type: 'slice'"))
  | _ => Raise (not_subscriptable v)
  end.

(** [len(v)]. *)
Definition py_len (v : pyval) : outcome Z :=
  match v with
  | PStr s => Ok (len s)
  | PList l => Ok (len l)
  | PDict d => Ok (len d)
  | _ =>
      Raise (mk_exn TypeError
               (lit "object of type '" ++ type_name v ++ lit "' has no len()"))
  end.

(** [{v}] inside an f-string. *)
Definition format_val (v : pyval) : pystr :=
  match v with
  | PStr s => s
  | PInt z => str_of_int z
  | _ => repr v
  end.

End Builtins.

End Py.

(** ** JSON text

    [requests.post(url, json=payload)] sends [json.dumps(payload)], encoded as
    UTF-8; the receiving side reads it back with a JSON decoder.  [dumps]
    follows [json.dumps] with its defaults ([ensure_ascii], separators [", "]
    and [": "]) and [allow_nan=False], as requests calls it; [loads] follows
    [json.loads]. *)

Module Json.
Import Py.

(** *** Encoding *)

Definition hex_digit (n : N) : codepoint :=
  (if n <? 10 then 48 + n else 87 + n)%N.

(** [format(n, '04x')] for [n < 0x10000]. *)
Definition hex4 (n : N) : pystr :=
  [hex_digit (N.shiftr n 12 mod 16); hex_digit (N.shiftr n 8 mod 16);
   hex_digit (N.shiftr n 4 mod 16); hex_digit (n mod 16)]%N.

Definition u_escape (n : N) : pystr := lit "\u" ++ hex4 n.

(** The replacement of one code point in [py_encode_basestring_ascii]. *)
Definition escape_char (c : codepoint) : pystr :=
  if (c =? 92)%N then lit "\\"
  else if (c =? 34)%N then [92; 34]%N
  else if (c =? 8)%N then lit "\b"
  else if (c =? 12)%N then lit "\f"
  else if (c =? 10)%N then lit "\n"
  else if (c =? 13)%N then lit "\r"
  else if (c =? 9)%N then lit "\t"
  else if (32 <=? c)%N && (c <=? 126)%N then [c]
  else if (c <? 0x10000)%N then u_escape c
  else
    let n := (c - 0x10000)%N in
    u_escape (N.lor 0xd800 (N.land (N.shiftr n 10) 0x3ff)) ++
    u_escape (N.lor 0xdc00 (N.land n 0x3ff)).

Definition encode_str (s : pystr) : pystr :=
  [34%N] ++ flat_map escape_char s ++ [34%N].

(** [", ".join(items)]. *)
Fixpoint join_comma (items : list pystr) : pystr :=
  match items with
  | [] => []
  | [x] => x
  | x :: rest => x ++ lit ", " ++ join_comma rest
  end.

Fixpoint encode (v : pyval) : pystr :=
  match v with
  | PNone => lit "null"
  | PBool true => lit "true"
  | PBool false => lit "false"
  | PInt z => str_of_int z
  | PFloat r => r
  | PStr s => encode_str s
  | PList l => lit "[" ++ join_comma (map encode l) ++ lit "]"
  | PDict d =>
      lit "{" ++
      join_comma (map (fun kv => encode_str (fst kv) ++ lit ": " ++
                                 encode (snd kv)) d) ++
      lit "}"
  end.

(** With [allow_nan=False] a float that is not finite is refused. *)
Definition finite_float (r : pystr) : bool :=
  negb (pystr_eqb r (lit "nan") || pystr_eqb r (lit "inf") ||
        pystr_eqb r (lit "-inf")).

(** The interpreter converts between [int] and decimal text up to 4300
    digits, and raises [ValueError] beyond. *)
Definition max_str_digits : Z := 4300.

Definition int_fits (z : Z) : bool :=
  len (str_of_int (Z.abs z)) <=? max_str_digits.

(** The complaint of the encoder about the first value it refuses, in the
    order it writes them. *)
Fixpoint refusal (v : pyval) : option pystr :=
  let first (found rest : option pystr) :=
    match found with
    | Some m => Some m
    | None => rest
    end in
  match v with
  | PFloat r =>
      if finite_float r then None
      else Some (lit "Out of range float values are not JSON compliant")
  | PInt z =>
      if int_fits z then None
      else Some (lit "Exceeds the limit (4300 digits) for integer string conversion; use sys.set_int_max_str_digits() to increase the limit")
  | PList l => fold_right (fun x rest => first (refusal x) rest) None l
  | PDict d =>
      fold_right (fun kv rest => first (refusal (snd kv)) rest) None d
  | _ => None
  end.

Definition encodable (v : pyval) : bool :=
  match refusal v with
  | None => true
  | Some _ => false
  end.

(** The [ValueError] of the encoder reaches the script as the
    [InvalidJSONError] requests wraps it in. *)
Definition dumps (v : pyval) : outcome pystr :=
  match refusal v with
  | None => Ok (encode v)
  | Some m => Raise (mk_exn InvalidJSONError m)
  end.

(** *** Decoding *)

Definition is_ws (c : codepoint) : bool :=
  ((c =? 32) || (c =? 9) || (c =? 10) || (c =? 13))%N.

Fixpoint skip_ws (s : pystr) : pystr :=
  match s with
  | c :: r => if is_ws c then skip_ws r else s
  | [] => []
  end.

Definition is_digit (c : codepoint) : bool := ((48 <=? c) && (c <=? 57))%N.

Definition hex_val (c : codepoint) : option N :=
  if is_digit c then Some (c - 48)%N
  else if ((97 <=? c) && (c <=? 102))%N then Some (c - 87)%N
  else if ((65 <=? c) && (c <=? 70))%N then Some (c - 55)%N
  else None.

(** The four hex digits after a backslash and a [u]. *)
Definition decode_uXXXX (a b c d : codepoint) : option N :=
  match hex_val a, hex_val b, hex_val c, hex_val d with
  | Some x, Some y, Some z, Some w =>
      Some (N.lor (N.shiftl x 12) (N.lor (N.shiftl y 8)
                                     (N.lor (N.shiftl z 4) w)))
  | _, _, _, _ => None
  end.

(** The one-letter escapes. *)
Definition unescape (e : codepoint) : option codepoint :=
  if (e =? 34)%N then Some 34%N
  else if (e =? 92)%N then Some 92%N
  else if (e =? 47)%N then Some 47%N
  else if (e =? 98)%N then Some 8%N
  else if (e =? 102)%N then Some 12%N
  else if (e =? 110)%N then Some 10%N
  else if (e =? 114)%N then Some 13%N
  else if (e =? 116)%N then Some 9%N
  else None.

Definition is_high_surrogate (u : N) : bool :=
  ((0xd800 <=? u) && (u <=? 0xdbff))%N.
Definition is_low_surrogate (u : N) : bool :=
  ((0xdc00 <=? u) && (u <=? 0xdfff))%N.

(** [scanstring], after the opening quote: the decoded text and what follows
    the closing quote.  [acc] holds the text read so far, last first. *)
Fixpoint scanstring (s : pystr) (acc : pystr) : option (pystr * pystr) :=
  match s with
  | [] => None
  | c :: r =>
      if (c =? 34)%N then Some (rev' acc, r)
      else if (c =? 92)%N then
        match r with
        | [] => None
        | e :: r1 =>
            if (e =? 117)%N then
              match r1 with
              | a :: b :: c2 :: d :: r2 =>
                  match decode_uXXXX a b c2 d with
                  | None => None
                  | Some u =>
                      if is_high_surrogate u then
                        match r2 with
                        | bs :: lu :: a' :: b' :: c' :: d' :: r3 =>
                            if ((bs =? 92) && (lu =? 117))%N then
                              match decode_uXXXX a' b' c' d' with
                              | None => None
                              | Some u2 =>
                                  if is_low_surrogate u2 then
                                    scanstring r3
                                      ((0x10000 +
                                        N.lor (N.shiftl (u - 0xd800) 10)
                                              (u2 - 0xdc00))%N :: acc)
                                  else scanstring r2 (u :: acc)
                              end
                            else scanstring r2 (u :: acc)
                        | _ => scanstring r2 (u :: acc)
                        end
                      else scanstring r2 (u :: acc)
                  end
              | _ => None
              end
            else
              match unescape e with
              | Some x => scanstring r1 (x :: acc)
              | None => None
              end
        end
      else if (c <? 32)%N then None
      else scanstring r (c :: acc)
  end.

(** The longest run of digits at the head of [s], and the rest. *)
Fixpoint span_digits (s : pystr) : pystr * pystr :=
  match s with
  | c :: r =>
      if is_digit c then let (ds, rest) := span_digits r in (c :: ds, rest)
      else ([], s)
  | [] => ([], [])
  end.

Definition digits_value (ds : pystr) : Z :=
  fold_left (fun n c => 10 * n + Z.of_N (c - 48)) ds 0.

(** The integer part of a number: [0] or a run of digits not starting with
    [0]. *)
Definition scan_int_part (s : pystr) : option (pystr * pystr) :=
  match s with
  | c :: r =>
      if (c =? 48)%N then Some ([c], r)
      else if is_digit c then Some (span_digits s)
      else None
  | [] => None
  end.

(** An optional fraction [.ddd]. *)
Definition scan_frac (s : pystr) : pystr * pystr :=
  match s with
  | c :: r =>
      if (c =? 46)%N then
        match span_digits r with
        | ([], _) => ([], s)
        | (ds, rest) => (c :: ds, rest)
        end
      else ([], s)
  | [] => ([], s)
  end.

(** An optional exponent [e+ddd]. *)
Definition scan_exp (s : pystr) : pystr * pystr :=
  match s with
  | c :: r =>
      if ((c =? 101) || (c =? 69))%N then
        let (sign, r') :=
          match r with
          | g :: r1 => if ((g =? 43) || (g =? 45))%N then ([g], r1) else ([], r)
          | [] => ([], r)
          end in
        match span_digits r' with
        | ([], _) => ([], s)
        | (ds, rest) => (c :: sign ++ ds, rest)
        end
      else ([], s)
  | [] => ([], s)
  end.

(** *** Floats

    [float(text)] is the double nearest to the decimal the text denotes,
    ties going to the even one, and [repr] of a double is the shortest
    decimal that reads back as that double.  A finite double is [m * 2^e]
    with [0 <= m < 2^53] and [-1074 <= e <= 971], [2^52 <= m] unless
    [e = -1074]. *)

(** The integer nearest to [p / q], for [0 <= p] and [0 < q]. *)
Definition round_half_even (p q : Z) : Z :=
  let d := p / q in
  let r := p mod q in
  if 2 * r <? q then d
  else if q <? 2 * r then d + 1
  else if Z.even d then d else d + 1.

(** [d * 10^s] and [m * 2^e] as fractions. *)
Definition of_decimal (d s : Z) : Z * Z :=
  if 0 <=? s then (d * 10 ^ s, 1) else (d, 10 ^ (- s)).

Definition of_binary (m e : Z) : Z * Z :=
  if 0 <=? e then (m * 2 ^ e, 1) else (m, 2 ^ (- e)).

(** The double nearest to [p / q], for [0 < p] and [0 < q]; [None] is
    infinity. *)
Definition nearest_double (p q : Z) : option (Z * Z) :=
  let k := Z.log2 p - Z.log2 q in
  let reaches :=
    if 0 <=? k then q * 2 ^ k <=? p else q <=? p * 2 ^ (- k) in
  let lg := if reaches then k else k - 1 in
  let e := Z.max (lg - 52) (-1074) in
  let m :=
    if e <? 0 then round_half_even (p * 2 ^ (- e)) q
    else round_half_even p (q * 2 ^ e) in
  let e' := if m =? 2 ^ 53 then e + 1 else e in
  let m' := if m =? 2 ^ 53 then 2 ^ 52 else m in
  if 971 <? e' then None else Some (m', e').

(** [10^t <= p / q]. *)
Definition reaches_pow10 (p q t : Z) : bool :=
  if 0 <=? t then 10 ^ t * q <=? p else q <=? p * 10 ^ (- t).

(** The exponent of the first decimal digit of [p / q]. *)
Definition floor_log10 (p q : Z) : Z :=
  let est := (Z.log2 p - Z.log2 q) * 30103 / 100000 in
  if reaches_pow10 p q (est + 2) then est + 2
  else if reaches_pow10 p q (est + 1) then est + 1
  else if reaches_pow10 p q est then est
  else if reaches_pow10 p q (est - 1) then est - 1
  else est - 2.

(** The decimal [d * 10^s] reads back as the double [m * 2^e]. *)
Definition reads_back (m e d s : Z) : bool :=
  let (p, q) := of_decimal d s in
  match nearest_double p q with
  | Some (m', e') => (m =? m') && (e =? e')
  | None => false
  end.

(** The decimal of [n] digits nearest to the double [m * 2^e] among those
    that read back as it, if there is one. *)
Definition shortest_at (m e n : Z) : option (Z * Z) :=
  let (p, q) := of_binary m e in
  let s := floor_log10 p q - (n - 1) in
  let p' := if 0 <=? s then p else p * 10 ^ (- s) in
  let q' := if 0 <=? s then q * 10 ^ s else q in
  let lo := p' / q' in
  let r := p' mod q' in
  let below := reads_back m e lo s in
  let above := reads_back m e (lo + 1) s in
  if below && above then
    if 2 * r <? q' then Some (lo, s)
    else if q' <? 2 * r then Some (lo + 1, s)
    else if Z.even lo then Some (lo, s) else Some (lo + 1, s)
  else if below then Some (lo, s)
  else if above then Some (lo + 1, s)
  else None.

(** The shortest decimal that reads back; 17 digits always do. *)
Fixpoint shortest_from (fuel : nat) (m e n : Z) : Z * Z :=
  match fuel with
  | O => (m, 0)
  | S fuel' =>
      match shortest_at m e n with
      | Some ds => ds
      | None => shortest_from fuel' m e (n + 1)
      end
  end.

Definition shortest_decimal (m e : Z) : Z * Z := shortest_from 17 m e 1.

(** [d * 10^s] without the zeros at the end of [d]. *)
Fixpoint strip_zeros (fuel : nat) (d s : Z) : Z * Z :=
  match fuel with
  | O => (d, s)
  | S fuel' =>
      if (d mod 10 =? 0) && negb (d =? 0)
      then strip_zeros fuel' (d / 10) (s + 1)
      else (d, s)
  end.

(** [repr] of a double that is not zero, from its digits and the number
    [decpt] of them that stand before the point: with an exponent, as
    [1.5e+20], when that number is above 16 or below -3, and with the point
    in place otherwise. *)
Definition float_text (digits : pystr) (decpt : Z) : pystr :=
  let n := len digits in
  if (decpt <=? -4) || (16 <? decpt) then
    let x := decpt - 1 in
    let xs := str_of_int (Z.abs x) in
    firstn 1 digits ++
    (if n =? 1 then [] else 46%N :: skipn 1 digits) ++
    [101%N; if x <? 0 then 45%N else 43%N] ++
    (if len xs =? 1 then 48%N :: xs else xs)
  else if decpt <=? 0 then
    lit "0." ++ repeat 48%N (Z.to_nat (- decpt)) ++ digits
  else if n <=? decpt then
    digits ++ repeat 48%N (Z.to_nat (decpt - n)) ++ lit ".0"
  else
    firstn (Z.to_nat decpt) digits ++ [46%N] ++ skipn (Z.to_nat decpt) digits.

Definition float_repr (m e : Z) : pystr :=
  if m =? 0 then lit "0.0"
  else
    let (d0, s0) := shortest_decimal m e in
    let (d, s) := strip_zeros 20 d0 s0 in
    let digits := str_of_int d in
    float_text digits (len digits + s).

(** The [repr] of the float a literal denotes, from the digits [ds] of its
    integer part and its fraction and the exponent [x] of ten to put on
    them.  Beyond [1e400] every literal is infinity and below [1e-400]
    every literal is zero, whatever its digits. *)
Definition float_of_decimal (neg : bool) (ds : Z) (x : Z) : pystr :=
  let size := len (str_of_int ds) + x in
  (if neg then [45%N] else []) ++
  if ds =? 0 then lit "0.0"
  else if 400 <? size then lit "inf"
  else if size <? -400 then lit "0.0"
  else
    let (p, q) := of_decimal ds x in
    match nearest_double p q with
    | None => lit "inf"
    | Some (m, e) => float_repr m e
    end.

(** The exponent a literal ends with, [0] when it has none. *)
Definition exponent_value (ep : pystr) : Z :=
  match ep with
  | _ :: g :: ds =>
      if (g =? 45)%N then - digits_value ds
      else if (g =? 43)%N then digits_value ds
      else digits_value (g :: ds)
  | _ => 0
  end.

(** A number with its sign already read: an [int] when it has neither
    fraction nor exponent ([int()] refuses more than 4300 digits), a [float]
    otherwise. *)
Definition scan_number (neg : bool) (s : pystr) : option (pyval * pystr) :=
  match scan_int_part s with
  | None => None
  | Some (ip, r) =>
      let (fp, r1) := scan_frac r in
      let (ep, r2) := scan_exp r1 in
      match fp, ep with
      | [], [] =>
          if max_str_digits <? len ip then None
          else
            Some (PInt (if neg then - digits_value ip else digits_value ip),
                  r2)
      | _, _ =>
          let frac := skipn 1 fp in
          Some (PFloat (float_of_decimal neg (digits_value (ip ++ frac))
                          (exponent_value ep - len frac)),
                r2)
      end
  end.

(** [s] starts with the literal [w]: what follows it. *)
Fixpoint strip_prefix (w s : pystr) : option pystr :=
  match w, s with
  | [], _ => Some s
  | a :: w', b :: s' => if (a =? b)%N then strip_prefix w' s' else None
  | _ :: _, [] => None
  end.

Section Containers.

(** The decoder of one value, as the array and object loops call it. *)
Variable scan_once : pystr -> option (pyval * pystr).

(** [JSONArray], after the bracket and the first value's leading space. *)
Fixpoint scan_elements (n : nat) (s : pystr) (acc : list pyval)
  : option (list pyval * pystr) :=
  match n with
  | O => None
  | S n' =>
      match scan_once s with
      | None => None
      | Some (v, r) =>
          match skip_ws r with
          | c :: r' =>
              if (c =? 93)%N then Some (rev' (v :: acc), r')
              else if (c =? 44)%N then scan_elements n' (skip_ws r') (v :: acc)
              else None
          | [] => None
          end
      end
  end.

(** [JSONObject], at the opening quote of a key.  The pairs go into the dict
    one by one, so a repeated key keeps its place and takes the later
    value. *)
Fixpoint scan_members (n : nat) (s : pystr) (acc : list (pystr * pyval))
  : option (list (pystr * pyval) * pystr) :=
  match n with
  | O => None
  | S n' =>
      match s with
      | q :: r0 =>
          if (q =? 34)%N then
            match scanstring r0 [] with
            | None => None
            | Some (k, r) =>
                match skip_ws r with
                | c :: r1 =>
                    if (c =? 58)%N then
                      match scan_once (skip_ws r1) with
                      | None => None
                      | Some (v, r2) =>
                          let acc' := dict_set k v acc in
                          match skip_ws r2 with
                          | c2 :: r3 =>
                              if (c2 =? 125)%N then Some (acc', r3)
                              else if (c2 =? 44)%N then
                                scan_members n' (skip_ws r3) acc'
                              else None
                          | [] => None
                          end
                      end
                    else None
                | [] => None
                end
            end
          else None
      | [] => None
      end
  end.

End Containers.

(** [scan_once]: one value at the head of [s].  Every nested value is shorter
    than the text around it, so the length of the text is fuel enough. *)
Fixpoint scan_value (fuel : nat) (s : pystr) : option (pyval * pystr) :=
  match fuel with
  | O => None
  | S fuel' =>
      match s with
      | [] => None
      | c :: r =>
          if (c =? 34)%N then
            match scanstring r [] with
            | Some (x, rest) => Some (PStr x, rest)
            | None => None
            end
          else if (c =? 123)%N then
            match skip_ws r with
            | c1 :: r1 =>
                if (c1 =? 125)%N then Some (PDict [], r1)
                else
                  match scan_members (scan_value fuel') (length r)
                          (skip_ws r) [] with
                  | Some (d, rest) => Some (PDict d, rest)
                  | None => None
                  end
            | [] => None
            end
          else if (c =? 91)%N then
            match skip_ws r with
            | c1 :: r1 =>
                if (c1 =? 93)%N then Some (PList [], r1)
                else
                  match scan_elements (scan_value fuel') (length r)
                          (skip_ws r) [] with
                  | Some (l, rest) => Some (PList l, rest)
                  | None => None
                  end
            | [] => None
            end
          else if (c =? 45)%N then
            match strip_prefix (lit "Infinity") r with
            | Some rest => Some (PFloat (lit "-inf"), rest)
            | None => scan_number true r
            end
          else if is_digit c then scan_number false s
          else
            match strip_prefix (lit "null") s with
            | Some rest => Some (PNone, rest)
            | None =>
            match strip_prefix (lit "true") s with
            | Some rest => Some (PBool true, rest)
            | None =>
            match strip_prefix (lit "false") s with
            | Some rest => Some (PBool false, rest)
            | None =>
            match strip_prefix (lit "NaN") s with
            | Some rest => Some (PFloat (lit "nan"), rest)
            | None =>
            match strip_prefix (lit "Infinity") s with
            | Some rest => Some (PFloat (lit "inf"), rest)
            | None => None
            end end end end end
      end
  end.

(** [json.loads]: one value, with nothing but white space around it;
    [None] stands for the exception raised, a [JSONDecodeError] or the
    [ValueError] of an integer too long. *)
Definition loads (s : pystr) : option pyval :=
  match scan_value (S (length s)) (skip_ws s) with
  | Some (v, rest) =>
      match skip_ws rest with
      | [] => Some v
      | _ :: _ => None
      end
  | None => None
  end.

End Json.

(** ** The world around a run, and the monad of a script *)

Module Runtime.
Import Py.

(** What [requests.post] hands to the HTTP layer. *)
Record request : Type := mk_request {
  req_url : pystr;
  req_headers : list (pystr * pystr);
  req_body : pystr
}.

(** A [requests.Response], as far as the scripts look at it: the status
    code, the raw body, and what calling [.json()] does. *)
Record response : Type := mk_response {
  status_code : Z;
  text : pystr;
  json : outcome pyval
}.

(** The encoding standard output was opened with, as far as [print]
    depends on it: its name, which code points beyond ASCII it lets through,
    and the reason it gives for the others ([ordinal not in range(128)] for
    [ascii], [surrogates not allowed] for [utf-8]).  ASCII is taken to go
    through, as it does in UTF-8, ASCII, Latin-1 and the code pages. *)
Record codec : Type := mk_codec {
  codec_name : pystr;
  codec_reason : pystr;
  codec_encodes : codepoint -> bool
}.

Definition can_encode (c : codec) (ch : codepoint) : bool :=
  (ch <? 128)%N || codec_encodes c ch.

(** A text the encoding can write. *)
Definition printable (c : codec) (s : pystr) : bool :=
  forallb (can_encode c) s.

(** [format(n, '0<digits>x')]. *)
Definition hex_of (digits : nat) (n : N) : pystr :=
  map (fun k => Json.hex_digit (N.shiftr n (4 * N.of_nat k) mod 16)%N)
      (rev (seq 0 digits)).

(** A code point, as the message of a [UnicodeEncodeError] spells it. *)
Definition char_escape (ch : codepoint) : pystr :=
  if (ch <=? 0xff)%N then lit "\x" ++ hex_of 2 ch
  else if (ch <=? 0xffff)%N then lit "\u" ++ hex_of 4 ch
  else lit "\U" ++ hex_of 8 ch.

(** How many code points at the head of [s] the encoding cannot write. *)
Fixpoint bad_run (c : codec) (s : pystr) : Z :=
  match s with
  | ch :: r => if can_encode c ch then 0 else 1 + bad_run c r
  | [] => 0
  end.

(** [str(e)] of the [UnicodeEncodeError] for [s], whose first code points
    that cannot be written start at position [pos] of the text: one
    character is shown, a longer run is given by its first and last
    position. *)
Fixpoint encode_error_at (c : codec) (s : pystr) (pos : Z) : pystr :=
  match s with
  | [] => []
  | ch :: r =>
      if can_encode c ch then encode_error_at c r (pos + 1)
      else
        lit "'" ++ codec_name c ++ lit "' codec can't encode " ++
        (if bad_run c r =? 0 then
           lit "character '" ++ char_escape ch ++ lit "' in position " ++
           str_of_int pos
         else
           lit "characters in position " ++ str_of_int pos ++ lit "-" ++
           str_of_int (pos + bad_run c r)) ++
        lit ": " ++ codec_reason c
  end.

Definition encode_error (c : codec) (s : pystr) : exn :=
  mk_exn UnicodeEncodeError (encode_error_at c s 0).

(** Everything a run could depend on from outside: the arguments on the
    command line, the environment, the interpreter's [repr], the encoding
    of standard output (which the interpreter settles, from the locale and
    the environment, before the script starts), and the outcome of a POST,
    which is a response or an exception raised inside [requests.post]. *)
Record world : Type := mk_world {
  argv : list pystr;
  environ : list (pystr * pystr);
  py_repr : pyval -> pystr;
  stdout_codec : codec;
  post_reply : request -> outcome response
}.

(** What a run leaves behind: the texts printed, one per [print] call that
    went through (a text may hold several lines), and the requests posted,
    both in order. *)
Record state : Type := mk_state {
  stdout : list pystr;
  posted : list request
}.

Definition initial : state := mk_state [] [].

Definition M (A : Type) : Type := state -> outcome A * state.

Definition ret {A : Type} (a : A) : M A := fun st => (Ok a, st).

Definition bind {A B : Type} (m : M A) (f : A -> M B) : M B :=
  fun st =>
    match m st with
    | (Ok a, st') => f a st'
    | (Raise e, st') => (Raise e, st')
    end.

Definition lift {A : Type} (r : outcome A) : M A := fun st => (r, st).

Notation "r >>= f" := (and_then r f) (at level 50, left associativity).
Notation "x <- m ;; k" := (bind m (fun x => k))
  (at level 61, m at next level, right associativity).
Notation "m ;; k" := (bind m (fun _ => k))
  (at level 61, right associativity).

(** [print(s)]: the text is encoded as a whole and written, or a
    [UnicodeEncodeError] is raised and nothing of it is written.  The state
    keeps the text, not its bytes; the device behind standard output is
    taken to accept them. *)
Definition print (c : codec) (s : pystr) : M unit :=
  fun st =>
    if printable c s
    then (Ok tt, mk_state (stdout st ++ [s]) (posted st))
    else (Raise (encode_error c s), st).

(** [requests.post(url, json=payload, headers=headers)]: the payload is
    serialised, the request goes out, and the world answers. *)
Definition requests_post (w : world) (url : pystr) (payload : pyval)
    (headers : list (pystr * pystr)) : M response :=
  fun st =>
    match Json.dumps payload with
    | Raise e => (Raise e, st)
    | Ok body =>
        let rq := mk_request url headers body in
        (post_reply w rq, mk_state (stdout st) (posted st ++ [rq]))
    end.

(** [try: body  except Exception as e: handler(e)]. *)
Definition try_except_Exception (body : M unit) (handler : exn -> M unit)
  : M unit :=
  fun st =>
    match body st with
    | (Ok a, st') => (Ok a, st')
    | (Raise e, st') =>
        if isinstance_Exception e then handler e st' else (Raise e, st')
    end.

(** How the process ends: with an exit code, or on an exception nobody
    caught (a traceback and a status that is not zero). *)
Inductive process_end : Type :=
| Exit (code : Z)
| Uncaught (e : exn).

(** Running a script whose last statement is the call of [main]. *)
Definition run_main (main : M unit) : state * process_end :=
  match main initial with
  | (Ok _, st) => (st, Exit 0)
  | (Raise e, st) => (st, Uncaught e)
  end.

(** The two markers the scripts print. *)
Definition check_mark : codepoint := 0x2705%N.
Definition cross_mark : codepoint := 0x274C%N.

End Runtime.

(** ** app/test-large-stdin.py *)

Module TestLargeStdin.
Import Py Runtime.

Definition large_content : pystr := seq_mul (lit "x") (60 * 1024).

Definition payload : pyval :=
  PDict
    [ (lit "model", PStr (lit "sonnet"));
      (lit "messages",
       PList
         [ PDict
             [ (lit "role", PStr (lit "user"));
               (lit "content",
                PStr (lit "This is a large content test. Content length: " ++
                      str_of_int (len large_content) ++
                      lit " bytes. First 100 chars: " ++
                      slice_to large_content 100)) ] ]) ].

Definition url : pystr := lit "http://localhost:8080/v1/chat/completions".

Definition headers : list (pystr * pystr) :=
  [ (lit "Content-Type", lit "application/json") ].

Section Script.
Variable w : world.

(** [result["choices"][0]["message"]["content"][:200]]. *)
Definition content_excerpt (result : pyval) : outcome pyval :=
  getitem_key (py_repr w) result (lit "choices")
  >>= (fun v => getitem_index (py_repr w) v 0)
  >>= (fun v => getitem_key (py_repr w) v (lit "message"))
  >>= (fun v => getitem_key (py_repr w) v (lit "content"))
  >>= (fun v => getitem_slice_to v 200).

(** The body of the [try]. *)
Definition post_and_report : M unit :=
  response <- requests_post w url payload headers ;;
  if status_code response =? 200 then
    print (stdout_codec w)
      (check_mark :: lit " Success! Large prompt handled correctly") ;;
    result <- lift (json response) ;;
    shown <- lift (content_excerpt result) ;;
    print (stdout_codec w)
      (lit "Response: " ++ format_val (py_repr w) shown ++ lit "...")
  else
    print (stdout_codec w)
      (cross_mark :: lit " Error: " ++ str_of_int (status_code response)) ;;
    print (stdout_codec w) (text response).

Definition test_stdin_implementation : M unit :=
  print (stdout_codec w)
    (lit "Testing stdin implementation with large prompt...") ;;
  print (stdout_codec w)
    (lit "Prompt size: " ++ str_of_int (len large_content) ++ lit " bytes") ;;
  try_except_Exception post_and_report
    (fun e => print (stdout_codec w)
        (cross_mark :: lit " Error: " ++ exn_str e)).

(** The script run as a program. *)
Definition main : state * process_end := run_main test_stdin_implementation.

End Script.

End TestLargeStdin.

(** ** app/test-stdin.py *)

Module TestStdin.
Import Py Runtime.

Definition large_content : pystr := seq_mul (lit "x") (60 * 1024).

(** The dict appended at turn [i] of the loop. *)
Definition tool (i : Z) : pyval :=
  PDict
    [ (lit "type", PStr (lit "function"));
      (lit "function",
       PDict
         [ (lit "name", PStr (lit "large_tool_" ++ str_of_int i));
           (lit "description",
            PStr (lit "This is a large tool description that simulates real MCP tool contexts. " ++
                  seq_mul (lit "x") 500));
           (lit "parameters",
            PDict
              [ (lit "type", PStr (lit "object"));
                (lit "properties",
                 PDict
                   [ (lit "param1",
                      PDict [ (lit "type", PStr (lit "string"));
                              (lit "description", PStr (lit "Parameter 1")) ]);
                     (lit "param2",
                      PDict [ (lit "type", PStr (lit "number"));
                              (lit "description", PStr (lit "Parameter 2")) ]) ]);
                (lit "required",
                 PList [ PStr (lit "param1"); PStr (lit "param2") ]) ]) ]) ].

(** [large_tools = []] and then the loop over [range(50)], each turn
    appending one dict. *)
Definition large_tools : list pyval :=
  fold_left (fun tools i => tools ++ [tool i]) (range 50) [].

Definition payload : pyval :=
  PDict
    [ (lit "model", PStr (lit "sonnet"));
      (lit "messages",
       PList
         [ PDict
             [ (lit "role", PStr (lit "user"));
               (lit "content",
                PStr (lit "Process this large content (first 100 chars): " ++
                      slice_to large_content 100)) ] ]);
      (lit "tools", PList large_tools) ].

Definition url : pystr := lit "http://localhost:8080/v1/chat/completions".

Definition headers : list (pystr * pystr) :=
  [ (lit "Content-Type", lit "application/json") ].

Section Script.
Variable w : world.

(** [len(result["choices"][0]["message"]["content"])]. *)
Definition content_length (result : pyval) : outcome Z :=
  getitem_key (py_repr w) result (lit "choices")
  >>= (fun v => getitem_index (py_repr w) v 0)
  >>= (fun v => getitem_key (py_repr w) v (lit "message"))
  >>= (fun v => getitem_key (py_repr w) v (lit "content"))
  >>= py_len.

(** The body of the [try]. *)
Definition post_and_report : M unit :=
  response <- requests_post w url payload headers ;;
  if status_code response =? 200 then
    print (stdout_codec w)
      (check_mark :: lit " Success! Stdin implementation working") ;;
    result <- lift (json response) ;;
    n <- lift (content_length result) ;;
    print (stdout_codec w) (lit "Response length: " ++ str_of_int n)
  else
    print (stdout_codec w)
      (cross_mark :: lit " Error: " ++ str_of_int (status_code response)) ;;
    print (stdout_codec w) (text response).

Definition test_stdin_implementation : M unit :=
  print (stdout_codec w)
    (lit "Testing stdin implementation with large prompt...") ;;
  print (stdout_codec w)
    (lit "Prompt size: " ++ str_of_int (len large_content) ++ lit " bytes") ;;
  print (stdout_codec w)
    (lit "Tools count: " ++ str_of_int (len large_tools)) ;;
  try_except_Exception post_and_report
    (fun e => print (stdout_codec w)
        (cross_mark :: lit " Error: " ++ exn_str e)).

(** The script run as a program. *)
Definition main : state * process_end := run_main test_stdin_implementation.

End Script.

End TestStdin.

(** ** Vocabulary of the statements *)

Module Spec.
Import Py Runtime.

(** [v[k]] when [v] is a dict that has the key. *)
Definition field (k : pystr) (v : pyval) : option pyval :=
  match v with
  | PDict d => lookup k d
  | _ => None
  end.

(** The content string of the one message of a payload. *)
Definition message_content (payload : pyval) : option pystr :=
  match field (lit "messages") payload with
  | Some (PList [m]) =>
      match field (lit "content") m with
      | Some (PStr c) => Some c
      | _ => None
      end
  | _ => None
  end.

(** A content string reports the size of the filler when the decimal
    digits of its length occur in it, and a 100-character prefix when the
    first 100 characters of the filler do. *)
Definition reports_size (filler content : pystr) : bool :=
  contains (str_of_int (len filler)) content.

Definition reports_prefix (filler content : pystr) : bool :=
  (len (slice_to filler 100) =? 100) && contains (slice_to filler 100) content.

(** [tool["type"]] and [tool["function"]["name"]]. *)
Definition tool_type (t : pyval) : option pyval := field (lit "type") t.

Definition tool_name (t : pyval) : option pyval :=
  match field (lit "function") t with
  | Some f => field (lit "name") f
  | None => None
  end.

(** What sits at [choices[0].message.content] in a decoded body, when the
    body has those keys. *)
Definition content_at (v : pyval) : option pyval :=
  match field (lit "choices") v with
  | Some (PList (choice :: _)) =>
      match field (lit "message") choice with
      | Some message => field (lit "content") message
      | None => None
      end
  | _ => None
  end.

(** A decoded body of the expected shape, with content [c]. *)
Definition expected_shape (v : pyval) (c : pystr) : Prop :=
  content_at v = Some (PStr c).

(** The request a script posts. *)
Definition request_for (url : pystr) (headers : list (pystr * pystr))
    (payload : pyval) : request :=
  mk_request url headers (Json.encode payload).

(** Where inside the [try] an exception [e] can come from: the POST itself,
    the parsing of a 200 response, or the extraction from the parsed body.
    The last two are reached once the success line has been printed, which
    takes a standard output that can write the check mark. *)
Inductive raised_in_try (w : world) (rq : request) {A : Type}
    (extract : pyval -> outcome A) (e : exn) : Prop :=
| raised_by_post :
    post_reply w rq = Raise e ->
    raised_in_try w rq extract e
| raised_by_json (r : response) :
    post_reply w rq = Ok r -> status_code r = 200 ->
    can_encode (stdout_codec w) check_mark = true ->
    json r = Raise e ->
    raised_in_try w rq extract e
| raised_by_extraction (r : response) (v : pyval) :
    post_reply w rq = Ok r -> status_code r = 200 ->
    can_encode (stdout_codec w) check_mark = true ->
    json r = Ok v -> extract v = Raise e ->
    raised_in_try w rq extract e.

(** A 200 response whose body is not JSON, or is JSON without the keys. *)
Definition malformed_200 (r : response) : Prop :=
  status_code r = 200 /\
  ((exists e, json r = Raise e /\ exn_cls e = JSONDecodeError) \/
   (exists v, json r = Ok v /\ content_at v = None)).

(** The filler string: 61440 characters, all of them [x], which UTF-8
    writes on as many bytes. *)
Definition is_filler (s : pystr) : Prop :=
  len s = 61440 /\ utf8_len s = 61440 /\ Forall (fun c => [c] = lit "x") s.

(** A text UTF-8 leaves as it is. *)
Definition is_ascii (s : pystr) : bool := forallb (fun c => (c <? 128)%N) s.

(** *** Values whose JSON text needs no escape

    Strings of printable ASCII without quote or backslash, integers of at
    most 4300 digits, booleans, [None], and lists and dicts of those, a dict
    having each key once.  Both payloads are of this kind. *)
Definition plain_char (c : codepoint) : bool :=
  ((32 <=? c) && (c <=? 126) && negb (c =? 34) && negb (c =? 92))%N.

Definition plain_str (s : pystr) : bool := forallb plain_char s.

Fixpoint distinct (ks : list pystr) : bool :=
  match ks with
  | [] => true
  | k :: ks' => negb (existsb (pystr_eqb k) ks') && distinct ks'
  end.

Fixpoint plainb (v : pyval) : bool :=
  match v with
  | PNone | PBool _ => true
  | PInt z => Json.int_fits z
  | PFloat _ => false
  | PStr s => plain_str s
  | PList l => forallb plainb l
  | PDict d =>
      forallb (fun kv => plain_str (fst kv) && plainb (snd kv)) d &&
      distinct (map fst d)
  end.

(** How deep lists and dicts nest in a value. *)
Fixpoint depth (v : pyval) : nat :=
  match v with
  | PList l => S (fold_right (fun x n => Nat.max (depth x) n) O l)
  | PDict d => S (fold_right (fun kv n => Nat.max (depth (snd kv)) n) O d)
  | _ => O
  end.

(** What follows the first item of a joined list. *)
Definition join_tail (items : list pystr) : pystr :=
  match items with
  | [] => []
  | _ :: _ => 44%N :: 32%N :: Json.join_comma items
  end.

(** The text of one key and its value. *)
Definition member (kv : pystr * pyval) : pystr :=
  Json.encode_str (fst kv) ++ lit ": " ++ Json.encode (snd kv).

(** The digits of a decimal number, as text. *)
Definition digits_of (d : Decimal.uint) : pystr :=
  lit (NilEmpty.string_of_uint d).

Definition digit_step (n : Z) (c : codepoint) : Z :=
  10 * n + Z.of_N (c - 48).

(** A text that cannot continue a number. *)
Definition ends_number (rest : pystr) : bool :=
  match rest with
  | [] => true
  | c :: _ =>
      negb (Json.is_digit c || (c =? 46) || (c =? 101) || (c =? 69))%N
  end.

(** A one-value decoder [pv] reads the text of [x] back, whatever follows
    it. *)
Definition decodes (pv : pystr -> option (pyval * pystr)) (x : pyval)
  : Prop :=
  plainb x = true /\
  forall rest, ends_number rest = true ->
    pv (Json.encode x ++ rest) = Some (x, rest).

(** The subscripts both scripts apply to a decoded body,
    [result["choices"][0]["message"]["content"]]. *)
Definition content_lookup (w : world) (result : pyval) : outcome pyval :=
  getitem_key (py_repr w) result (lit "choices")
  >>= (fun v => getitem_index (py_repr w) v 0)
  >>= (fun v => getitem_key (py_repr w) v (lit "message"))
  >>= (fun v => getitem_key (py_repr w) v (lit "content")).

(** The requests of the two scripts. *)
Definition request1 : request :=
  request_for TestLargeStdin.url TestLargeStdin.headers TestLargeStdin.payload.
Definition request2 : request :=
  request_for TestStdin.url TestStdin.headers TestStdin.payload.

(** The texts the scripts print, given what they interpolate. *)
Definition preamble1 : list pystr :=
  [ lit "Testing stdin implementation with large prompt...";
    lit "Prompt size: 61440 bytes" ].
Definition preamble2 : list pystr :=
  preamble1 ++ [ lit "Tools count: 50" ].
Definition success1 : pystr :=
  check_mark :: lit " Success! Large prompt handled correctly".
Definition success2 : pystr :=
  check_mark :: lit " Success! Stdin implementation working".
Definition failure_line (what : pystr) : pystr :=
  cross_mark :: lit " Error: " ++ what.

(** What the [try] statement and the end of the program make of the outcome
    of the [try] body: an [Exception] goes to the handler, whose own [print]
    may raise in its turn. *)
Definition settle (c : codec) (r : outcome unit * state)
  : state * process_end :=
  match r with
  | (Ok _, st) => (st, Exit 0)
  | (Raise e, st) =>
      if isinstance_Exception e then
        match print c (failure_line (exn_str e)) st with
        | (Ok _, st') => (st', Exit 0)
        | (Raise e', st') => (st', Uncaught e')
        end
      else (st, Uncaught e)
  end.

(** An action that, from any state, leaves the requests [l] posted after
    the ones that were. *)
Definition posts {A : Type} (m : M A) (l : list request) : Prop :=
  forall st, posted (snd (m st)) = posted st ++ l.

(** Standard output can write both markers. *)
Definition writes_markers (c : codec) : Prop :=
  can_encode c check_mark = true /\ can_encode c cross_mark = true.

(** *** Worlds to try the scripts in *)

(** [ascii(v)], which is [repr(v)] with every code point beyond ASCII
    escaped; the two agree on the values the examples format, which hold
    ASCII text only. *)
Definition ascii_char (quote ch : codepoint) : pystr :=
  if ((ch =? quote) || (ch =? 92))%N then [92%N; ch]
  else if (ch =? 9)%N then lit "\t"
  else if (ch =? 10)%N then lit "\n"
  else if (ch =? 13)%N then lit "\r"
  else if ((ch <? 32) || (ch =? 127))%N then lit "\x" ++ hex_of 2 ch
  else if (ch <? 127)%N then [ch]
  else char_escape ch.

Definition ascii_str (s : pystr) : pystr :=
  let quote :=
    if existsb (N.eqb 39) s && negb (existsb (N.eqb 34) s)
    then 34%N else 39%N in
  [quote] ++ flat_map (ascii_char quote) s ++ [quote].

Fixpoint py_ascii (v : pyval) : pystr :=
  match v with
  | PNone => lit "None"
  | PBool true => lit "True"
  | PBool false => lit "False"
  | PInt z => str_of_int z
  | PFloat r => r
  | PStr s => ascii_str s
  | PList l => lit "[" ++ Json.join_comma (map py_ascii l) ++ lit "]"
  | PDict d =>
      lit "{" ++
      Json.join_comma
        (map (fun kv => ascii_str (fst kv) ++ lit ": " ++ py_ascii (snd kv))
             d) ++
      lit "}"
  end.

(** Standard output in UTF-8: everything but the surrogates. *)
Definition utf8_codec : codec :=
  mk_codec (lit "utf-8") (lit "surrogates not allowed")
    (fun ch => (ch <? 0x110000)%N &&
               negb (Json.is_high_surrogate ch || Json.is_low_surrogate ch)).

(** Standard output in ASCII, as under the C locale. *)
Definition ascii_codec : codec :=
  mk_codec (lit "ascii") (lit "ordinal not in range(128)") (fun _ => false).

(** A run without arguments on a UTF-8 terminal, and one with
    [PYTHONIOENCODING=ascii]. *)
Definition world_of (reply : outcome response) : world :=
  mk_world [] [] py_ascii utf8_codec (fun _ => reply).

Definition ascii_world_of (reply : outcome response) : world :=
  mk_world [] [ (lit "PYTHONIOENCODING", lit "ascii") ] py_ascii ascii_codec
    (fun _ => reply).

(** Nobody listens on the port. *)
Definition connection_refused : exn :=
  mk_exn ConnectionError (lit "Connection refused").

(** The user presses Ctrl-C while the request is in flight. *)
Definition interrupted : exn := mk_exn KeyboardInterrupt [].

(** The body [{"choices":[{"message":{"content":"hello"}}]}]. *)
Definition hello_text : pystr :=
  lit "{" ++ [34%N] ++ lit "choices" ++ [34%N] ++ lit ":[{" ++
  [34%N] ++ lit "message" ++ [34%N] ++ lit ":{" ++
  [34%N] ++ lit "content" ++ [34%N] ++ lit ":" ++
  [34%N] ++ lit "hello" ++ [34%N] ++ lit "}}]}".

Definition hello_body : pyval :=
  PDict [ (lit "choices",
           PList [ PDict [ (lit "message",
                            PDict [ (lit "content", PStr (lit "hello")) ]) ] ]) ].

Definition hello_response : response :=
  mk_response 200 hello_text (Ok hello_body).

(** A 500 with the body [server error]. *)
Definition server_error_response : response :=
  mk_response 500 (lit "server error")
    (Raise (mk_exn JSONDecodeError
              (lit "Expecting value: line 1 column 1 (char 0)"))).

(** A 200 whose body is an HTML page. *)
Definition html_response : response :=
  mk_response 200 (lit "<html></html>")
    (Raise (mk_exn JSONDecodeError
              (lit "Expecting value: line 1 column 1 (char 0)"))).

(** A 200 whose body is the JSON object [{"error": "busy"}]. *)
Definition no_choices_response : response :=
  mk_response 200
    (lit "{" ++ [34%N] ++ lit "error" ++ [34%N] ++ lit ": " ++
     [34%N] ++ lit "busy" ++ [34%N] ++ lit "}")
    (Ok (PDict [ (lit "error", PStr (lit "busy")) ])).

(** *** Responses by the content they carry *)

(** A decoded body that carries [x] as the content of its first choice,
    and a 200 response with that body. *)
Definition body_with (x : pyval) : pyval :=
  PDict [ (lit "choices",
           PList [ PDict [ (lit "message",
                            PDict [ (lit "content", x) ]) ] ]) ].

(** A 200 response with the decoded body [v]. *)
Definition response_of (v : pyval) : response :=
  mk_response 200 (Json.encode v) (Ok v).

Definition response_with (x : pyval) : response :=
  response_of (body_with x).

(** A content of 250 characters, and one that is a lone surrogate. *)
Definition long_content : pystr := repeat 97%N 250.

Definition lone_surrogate : pystr := [0xd83d%N].

(** What [print] raises on an ASCII standard output for a text that starts
    with the cross mark, and what it says on a UTF-8 one about the lone
    surrogate that follows [Response: ]. *)
Definition cross_mark_refused : exn :=
  mk_exn UnicodeEncodeError
    (lit "'ascii' codec can't encode character '\u274c' in position 0: ordinal not in range(128)").

Definition surrogate_refused : pystr :=
  lit "'utf-8' codec can't encode character '\ud83d' in position 10: surrogates not allowed".

(** A body of the expected shape that also holds an integer of 4301
    digits: JSON text, which [response.json()] refuses with the
    [ValueError] of the conversion to [int]. *)
Definition huge_number_body : pyval :=
  PDict
    [ (lit "choices",
       PList [ PDict [ (lit "message",
                        PDict [ (lit "content", PStr (lit "hello")) ]) ] ]);
      (lit "created", PInt (10 ^ 4300)) ].

Definition too_many_digits : exn :=
  mk_exn (OtherException (lit "ValueError"))
    (lit "Exceeds the limit (4300 digits) for integer string conversion: value has 4301 digits; use sys.set_int_max_str_digits() to increase the limit").

Definition huge_number_response : response :=
  mk_response 200 (Json.encode huge_number_body) (Raise too_many_digits).

(** *** The loop that builds the tool list *)

(** The list after [k] turns of the loop over [range(50)]. *)
Definition tools_after (k : nat) : list pyval :=
  fold_left (fun tools i => tools ++ [TestStdin.tool i])
    (firstn k (range 50)) [].

(** [tool["function"][k]]. *)
Definition tool_field (k : pystr) (t : pyval) : option pyval :=
  match field (lit "function") t with
  | Some f => field k f
  | None => None
  end.

(** A 200 response like [hello_response], with more around the content. *)
Definition hello_verbose_body : pyval :=
  PDict
    [ (lit "id", PStr (lit "chatcmpl-1"));
      (lit "choices",
       PList
         [ PDict [ (lit "index", PInt 0);
                   (lit "message",
                    PDict [ (lit "role", PStr (lit "assistant"));
                            (lit "content", PStr (lit "hello")) ]);
                   (lit "finish_reason", PStr (lit "stop")) ];
           PDict [ (lit "index", PInt 1) ] ]);
      (lit "usage", PDict [ (lit "total_tokens", PInt 7) ]) ].

Definition hello_verbose_response : response :=
  response_of hello_verbose_body.

(** A 200 response whose body has an empty list of choices. *)
Definition empty_choices_response : response :=
  response_of (PDict [ (lit "choices", PList []) ]).

End Spec.

(** * Properties *)

Import Py Runtime Spec Json.

(** ** Sequences, literals and integers *)

Section Sequences.
Context {A : Type}.
Implicit Types (c : A) (n k : nat).

Lemma len_repeat c n : len (repeat c n) = Z.of_nat n.
Proof. unfold len. now rewrite repeat_length. Qed.

Lemma len_app (a b : list A) : len (a ++ b) = len a + len b.
Proof. unfold len. rewrite length_app. lia. Qed.

Lemma seq_mul_single c (z : Z) : seq_mul [c] z = repeat c (Z.to_nat z).
Proof.
  unfold seq_mul. induction (Z.to_nat z) as [|k IH]; simpl; [reflexivity|].
  now rewrite IH.
Qed.

Lemma fold_append_map {B : Type} (f : A -> B) l acc :
  fold_left (fun xs i => xs ++ [f i]) l acc = acc ++ map f l.
Proof.
  revert acc. induction l as [|a l IH]; intros acc; simpl.
  - now rewrite app_nil_r.
  - rewrite IH, <- app_assoc. reflexivity.
Qed.

End Sequences.

Lemma utf8_len_repeat c n : utf8_len (repeat c n) = utf8_width c * Z.of_nat n.
Proof.
  unfold utf8_len. induction n as [|n IH]; [simpl; lia|].
  cbn [repeat fold_right]. rewrite IH. lia.
Qed.

Lemma range_length n : len (range n) = Z.max 0 n.
Proof. unfold len, range. rewrite length_map, length_seq. lia. Qed.

Lemma range_nth_error n i :
  0 <= i < n -> nth_error (range n) (Z.to_nat i) = Some i.
Proof.
  intros H. unfold range.
  rewrite nth_error_map, nth_error_seq.
  destruct (Nat.ltb_spec (Z.to_nat i) (Z.to_nat n)); [|lia].
  simpl. f_equal. lia.
Qed.

(** Two literals that read the same are the same. *)
Lemma lit_inj a b : lit a = lit b -> a = b.
Proof.
  unfold lit. intros H.
  rewrite <- (string_of_list_ascii_of_string a),
          <- (string_of_list_ascii_of_string b).
  f_equal. revert H.
  generalize (list_ascii_of_string a) (list_ascii_of_string b).
  induction l as [|x l IH]; intros [|y l'] H; simpl in H;
    try discriminate; [reflexivity|].
  injection H as Hxy Hl. f_equal; [|now apply IH].
  rewrite <- (ascii_N_embedding x), <- (ascii_N_embedding y).
  now rewrite Hxy.
Qed.

Lemma to_int_not_nil z :
  Z.to_int z <> Decimal.Pos Decimal.Nil /\
  Z.to_int z <> Decimal.Neg Decimal.Nil.
Proof.
  split; intros H; pose proof (DecimalZ.of_to z) as E; rewrite H in E;
    cbn in E; subst z; discriminate H.
Qed.

(** Distinct integers print differently. *)
Lemma str_of_int_inj a b : str_of_int a = str_of_int b -> a = b.
Proof.
  unfold str_of_int. intros H. apply lit_inj in H.
  apply DecimalZ.to_int_inj.
  destruct (to_int_not_nil a) as [Ha1 Ha2], (to_int_not_nil b) as [Hb1 Hb2].
  pose proof (NilZero.isi _ Ha1 Ha2) as Ea.
  pose proof (NilZero.isi _ Hb1 Hb2) as Eb.
  rewrite H in Ea. rewrite Ea in Eb. now injection Eb.
Qed.

(** ** The filler string *)

Lemma seq_mul_x n : seq_mul (lit "x") n = repeat 120%N (Z.to_nat n).
Proof. exact (seq_mul_single 120%N n). Qed.

Lemma filler_of_repeat : is_filler (repeat 120%N (Z.to_nat 61440)).
Proof.
  split; [|split].
  - rewrite len_repeat. lia.
  - rewrite utf8_len_repeat. change (utf8_width 120%N) with 1. lia.
  - apply Forall_forall. intros c Hc. apply repeat_spec in Hc. now subst c.
Qed.

(** C1: in both scripts the filler string built at module level has length
    exactly 61440, takes 61440 bytes, and is one character, [x], repeated. *)
Theorem filler_string_spec :
  is_filler TestLargeStdin.large_content /\ is_filler TestStdin.large_content.
Proof.
  unfold TestLargeStdin.large_content, TestStdin.large_content.
  change (60 * 1024) with 61440. rewrite seq_mul_x.
  split; exact filler_of_repeat.
Qed.

(** ** The content string of the message *)

(** C2, as stated, fails for [test-stdin.py]: the content of its message is
    the fixed sentence followed by the 100-character prefix, and the size of
    the filler is nowhere in it. *)
Lemma test_stdin_content_omits_size :
  message_content TestStdin.payload =
    Some (lit "Process this large content (first 100 chars): " ++
          repeat 120%N 100) /\
  reports_size TestStdin.large_content
    (lit "Process this large content (first 100 chars): " ++
     repeat 120%N 100) = false.
Proof. split; vm_compute; reflexivity. Qed.

(** C2, amended: in both scripts the payload has a single message whose
    content string carries the first 100 characters of the filler; in
    [test-large-stdin.py] it also reports the size of the filler, in
    [test-stdin.py] it does not. *)
Theorem message_content_reports :
  (exists c,
     message_content TestLargeStdin.payload = Some c /\
     c = lit "This is a large content test. Content length: 61440 bytes. First 100 chars: " ++
         repeat 120%N 100 /\
     reports_size TestLargeStdin.large_content c = true /\
     reports_prefix TestLargeStdin.large_content c = true) /\
  (exists c,
     message_content TestStdin.payload = Some c /\
     c = lit "Process this large content (first 100 chars): " ++
         repeat 120%N 100 /\
     reports_size TestStdin.large_content c = false /\
     reports_prefix TestStdin.large_content c = true).
Proof.
  split; eexists; (split; [vm_compute; reflexivity|]);
    (split; [|split]); vm_compute; reflexivity.
Qed.

(** ** The tool list *)

(** The loop leaves the list of [tool i] for [i] in [range(50)]. *)
Lemma large_tools_map : TestStdin.large_tools = map TestStdin.tool (range 50).
Proof. unfold TestStdin.large_tools. now rewrite fold_append_map. Qed.

Lemma large_tools_nth i :
  0 <= i < 50 ->
  nth_error TestStdin.large_tools (Z.to_nat i) = Some (TestStdin.tool i).
Proof.
  intros H. rewrite large_tools_map, nth_error_map, range_nth_error by exact H.
  reflexivity.
Qed.

(** Comparisons of two literal keys are decided by evaluation. *)
Ltac eval_keys :=
  repeat match goal with
  | |- context [pystr_eqb ?a ?b] =>
      let v := eval vm_compute in (pystr_eqb a b) in
      change (pystr_eqb a b) with v
  end.

Lemma tool_type_tool i :
  tool_type (TestStdin.tool i) = Some (PStr (lit "function")).
Proof. reflexivity. Qed.

Lemma tool_name_tool i :
  tool_name (TestStdin.tool i) =
  Some (PStr (lit "large_tool_" ++ str_of_int i)).
Proof.
  unfold tool_name, field, TestStdin.tool. cbn [lookup]. eval_keys.
  cbn [lookup]. eval_keys. reflexivity.
Qed.

(** C4: the tool list of [test-stdin.py] has exactly 50 elements; the one at
    index [i] has type ["function"] and the name ["large_tool_"] followed by
    [i], and no element at another index has that name. *)
Theorem large_tools_spec (i : Z) :
  0 <= i < 50 ->
  len TestStdin.large_tools = 50 /\
  exists t,
    nth_error TestStdin.large_tools (Z.to_nat i) = Some t /\
    tool_type t = Some (PStr (lit "function")) /\
    tool_name t = Some (PStr (lit "large_tool_" ++ str_of_int i)) /\
    forall j u, 0 <= j < 50 ->
      nth_error TestStdin.large_tools (Z.to_nat j) = Some u ->
      tool_name u = tool_name t -> j = i.
Proof.
  intros H. split.
  - rewrite large_tools_map. unfold len. rewrite length_map.
    exact (range_length 50).
  - exists (TestStdin.tool i). split; [now apply large_tools_nth|].
    split; [apply tool_type_tool|]. split; [apply tool_name_tool|].
    intros j u Hj Hu E. rewrite large_tools_nth in Hu by exact Hj.
    injection Hu as <-. rewrite !tool_name_tool in E.
    injection E as E. now apply str_of_int_inj.
Qed.

Lemma large_tools_spec_witness :
  0 <= 7 < 50 /\
  exists t,
    nth_error TestStdin.large_tools (Z.to_nat 7) = Some t /\
    tool_type t = Some (PStr (lit "function")) /\
    tool_name t = Some (PStr (lit "large_tool_7")).
Proof.
  split; [lia|].
  destruct (large_tools_spec 7 ltac:(lia)) as [_ [t [Ht [Hty [Hn _]]]]].
  exists t. split; [exact Ht|]. split; [exact Hty | exact Hn].
Defined.

(** ** Subscripting a decoded body *)

Lemma and_then_Raise {A B : Type} (r : outcome A) (f : A -> outcome B) e :
  r >>= f = Raise e -> r = Raise e \/ exists a, r = Ok a /\ f a = Raise e.
Proof.
  destruct r as [a|e']; simpl; intros H; [right; eauto|left].
  now injection H as ->.
Qed.

Lemma and_then_Ok {A B : Type} (r : outcome A) (f : A -> outcome B) b :
  r >>= f = Ok b -> exists a, r = Ok a /\ f a = Ok b.
Proof. destruct r as [a|e']; simpl; intros H; [eauto|discriminate]. Qed.

Lemma getitem_key_Ok repr v k x :
  getitem_key repr v k = Ok x -> field k v = Some x.
Proof.
  destruct v; simpl; try discriminate.
  destruct (lookup k d); [|discriminate]. now intros [= ->].
Qed.

Lemma getitem_key_field repr v k x :
  field k v = Some x -> getitem_key repr v k = Ok x.
Proof. destruct v; simpl; try discriminate. now intros ->. Qed.

(** Whatever a subscript, a slice or [len] raises is an [Exception]. *)
Lemma getitem_key_Exception repr v k e :
  getitem_key repr v k = Raise e -> isinstance_Exception e = true.
Proof.
  destruct v; simpl; try (intros [= <-]; reflexivity).
  destruct (lookup k d); [discriminate|]. now intros [= <-].
Qed.

Lemma getitem_index_Exception repr v i e :
  getitem_index repr v i = Raise e -> isinstance_Exception e = true.
Proof.
  destruct v; simpl; try (intros [= <-]; reflexivity).
  - destruct (index_pos (len s) i) as [n|]; [destruct (nth_error s n)|];
      try discriminate; now intros [= <-].
  - destruct (index_pos (len l) i) as [n|]; [destruct (nth_error l n)|];
      try discriminate; now intros [= <-].
Qed.

Lemma getitem_slice_to_Exception v k e :
  getitem_slice_to v k = Raise e -> isinstance_Exception e = true.
Proof. destruct v; simpl; try discriminate; now intros [= <-]. Qed.

Lemma py_len_Exception v e :
  py_len v = Raise e -> isinstance_Exception e = true.
Proof. destruct v; simpl; try discriminate; now intros [= <-]. Qed.

Create HintDb exceptions.
#[local] Hint Resolve getitem_key_Exception getitem_index_Exception
  getitem_slice_to_Exception py_len_Exception : exceptions.

Lemma content_lookup_Exception w v e :
  content_lookup w v = Raise e -> isinstance_Exception e = true.
Proof.
  unfold content_lookup. intros H.
  repeat match goal with
  | H : _ >>= _ = Raise _ |- _ =>
      apply and_then_Raise in H; destruct H as [H | [? [? H]]]
  end;
  eauto with exceptions.
Qed.

(** [v[0]] returns the head of a list, or a one-character string. *)
Lemma getitem_index_0_Ok repr v x :
  getitem_index repr v 0 = Ok x ->
  (exists l, v = PList (x :: l)) \/ (exists s, x = PStr s).
Proof.
  destruct v; simpl; try discriminate.
  - destruct (index_pos (len s) 0) as [n|]; [destruct (nth_error s n)|];
      try discriminate. intros [= <-]. right. eauto.
  - unfold index_pos. simpl.
    destruct l as [|y l]; [discriminate|].
    replace (0 <? len (y :: l)) with true
      by (symmetry; apply Z.ltb_lt; unfold len; simpl length; lia).
    simpl. intros [= <-]. left. eauto.
Qed.

(** The subscripts succeed exactly on a body that has the keys. *)
Lemma content_lookup_Ok w v x :
  content_lookup w v = Ok x <-> content_at v = Some x.
Proof.
  unfold content_lookup, content_at. split.
  - intros H.
    apply and_then_Ok in H. destruct H as [m [H Hc]].
    apply and_then_Ok in H. destruct H as [ch [H Hm]].
    apply and_then_Ok in H. destruct H as [chs [H Hi]].
    apply getitem_key_Ok in H, Hm, Hc. rewrite H.
    apply getitem_index_0_Ok in Hi. destruct Hi as [[l ->] | [s ->]].
    + now rewrite Hm.
    + discriminate Hm.
  - intros H.
    destruct (field (lit "choices") v) as [chs|] eqn:E1; [|discriminate].
    destruct chs as [| | | | |[|ch l]|]; try discriminate.
    destruct (field (lit "message") ch) as [m|] eqn:E2; [|discriminate].
    rewrite (getitem_key_field _ _ _ _ E1). simpl.
    rewrite (getitem_key_field _ _ _ _ E2). simpl.
    now apply getitem_key_field.
Qed.

Lemma content_lookup_missing w v :
  content_at v = None ->
  exists e, content_lookup w v = Raise e /\ isinstance_Exception e = true.
Proof.
  intros H. destruct (content_lookup w v) as [x|e] eqn:E.
  - apply content_lookup_Ok in E. congruence.
  - exists e. split; [reflexivity|]. now apply content_lookup_Exception in E.
Qed.

Lemma content_excerpt_eq w v :
  TestLargeStdin.content_excerpt w v =
  content_lookup w v >>= (fun x => getitem_slice_to x 200).
Proof. reflexivity. Qed.

Lemma content_length_eq w v :
  TestStdin.content_length w v = content_lookup w v >>= py_len.
Proof. reflexivity. Qed.

(** ** JSON text: decoding undoes encoding *)

Lemma pystr_eqb_eq a b : pystr_eqb a b = true <-> a = b.
Proof.
  unfold pystr_eqb. destruct (list_eq_dec N.eq_dec a b); split; congruence.
Qed.

(** *** Strings *)

Lemma plain_char_spec c :
  plain_char c = true ->
  (32 <= c)%N /\ (c <= 126)%N /\ c <> 34%N /\ c <> 92%N.
Proof.
  unfold plain_char. rewrite !andb_true_iff, !negb_true_iff.
  intros [[[H1 H2] H3] H4].
  apply N.leb_le in H1, H2. apply N.eqb_neq in H3, H4. auto.
Qed.

Lemma escape_plain_char c : plain_char c = true -> escape_char c = [c].
Proof.
  intros H. apply plain_char_spec in H. destruct H as (H1 & H2 & H3 & H4).
  unfold escape_char.
  repeat match goal with
  | |- context [(c =? ?k)%N] =>
      destruct (N.eqb_spec c k); [lia|]
  end.
  destruct (N.leb_spec 32 c); [|lia].
  destruct (N.leb_spec c 126); [|lia]. reflexivity.
Qed.

Lemma scanstring_plain s : plain_str s = true ->
  forall rest acc,
    scanstring (flat_map escape_char s ++ 34%N :: rest) acc =
    Some (rev' acc ++ s, rest).
Proof.
  induction s as [|c s IH]; intros Hs rest acc.
  - simpl. now rewrite app_nil_r.
  - simpl in Hs. apply andb_true_iff in Hs. destruct Hs as [Hc Hs].
    cbn [flat_map]. rewrite (escape_plain_char c Hc).
    apply plain_char_spec in Hc. destruct Hc as (H1 & H2 & H3 & H4).
    cbn [app scanstring].
    destruct (N.eqb_spec c 34); [lia|].
    destruct (N.eqb_spec c 92); [lia|].
    destruct (N.ltb_spec c 32); [lia|].
    rewrite (IH Hs). f_equal. f_equal.
    unfold rev'. rewrite <- !rev_alt. simpl. now rewrite <- app_assoc.
Qed.

Lemma encode_str_app s rest :
  encode_str s ++ rest = 34%N :: flat_map escape_char s ++ 34%N :: rest.
Proof. unfold encode_str. simpl. now rewrite <- app_assoc. Qed.

(** *** Integers *)

Lemma ends_number_not_digit c r :
  ends_number (c :: r) = true ->
  is_digit c = false /\ (c =? 46)%N = false /\
  ((c =? 101) || (c =? 69))%N = false.
Proof. simpl. rewrite negb_true_iff, !orb_false_iff. tauto. Qed.

Lemma is_digit_spec c : is_digit c = true -> (48 <= c <= 57)%N.
Proof. unfold is_digit. rewrite andb_true_iff, !N.leb_le. tauto. Qed.

(** The text of a number that starts with a digit starts with its
    character. *)
Ltac digit_head :=
  match goal with
  | |- context [digits_of (?D ?d)] =>
      let h := eval vm_compute in (hd 0%N (digits_of (D Decimal.Nil))) in
      change (digits_of (D d)) with (h :: digits_of d)
  end.

Lemma span_digits_digits d rest :
  ends_number rest = true ->
  span_digits (digits_of d ++ rest) = (digits_of d, rest).
Proof.
  intros Hr. induction d as [| d IH | d IH | d IH | d IH | d IH
                              | d IH | d IH | d IH | d IH | d IH];
    try (digit_head; cbn [app span_digits]; rewrite IH; reflexivity).
  change (digits_of Decimal.Nil) with (@nil codepoint). cbn [app].
  destruct rest as [|c r]; [reflexivity|].
  apply ends_number_not_digit in Hr. destruct Hr as [Hd _].
  cbn [span_digits]. now rewrite Hd.
Qed.

Lemma fold_digits d : forall a,
  fold_left digit_step (digits_of d) (Zpos a) = Zpos (Pos.of_uint_acc d a).
Proof.
  induction d as [| d IH | d IH | d IH | d IH | d IH
                  | d IH | d IH | d IH | d IH | d IH]; intros a;
    try reflexivity;
    digit_head; cbn [fold_left Pos.of_uint_acc]; rewrite <- IH; f_equal;
    unfold digit_step;
    match goal with
    | |- context [Z.of_N ?e] =>
        let v := eval vm_compute in (Z.of_N e) in change (Z.of_N e) with v
    end; lia.
Qed.

Lemma digits_value_of_uint d :
  digits_value (digits_of d) = Z.of_N (Pos.of_uint d).
Proof.
  unfold digits_value. fold digit_step.
  induction d as [| d IH | d IH | d IH | d IH | d IH
                  | d IH | d IH | d IH | d IH | d IH];
    try reflexivity;
    digit_head; cbn [fold_left Pos.of_uint];
    [exact IH | apply fold_digits ..].
Qed.

(** A positive number is written without a leading zero. *)
Lemma to_uint_head p :
  exists c t, digits_of (Pos.to_uint p) = c :: t /\
    is_digit c = true /\ (c =? 48)%N = false.
Proof.
  pose proof (DecimalPos.Unsigned.to_uint_nonzero p) as Hz.
  pose proof (DecimalPos.Unsigned.to_uint_nonnil p) as Hn.
  pose proof (DecimalPos.Unsigned.to_of (Pos.to_uint p)) as Hu.
  rewrite DecimalPos.Unsigned.of_to in Hu. cbn [N.to_uint] in Hu.
  destruct (Pos.to_uint p) as [| d | d | d | d | d | d | d | d | d | d] eqn:E;
    try (digit_head; eexists; eexists; split; [reflexivity|];
         split; reflexivity).
  - contradiction.
  - exfalso. rewrite DecimalFacts.unorm_D0 in Hu.
    destruct d as [|d'| | | | | | | | |]; try discriminate Hu;
      [now apply Hz|].
    unfold Decimal.unorm in Hu.
    pose proof (DecimalFacts.nzhead_nonzero (Decimal.D0 d') (Decimal.D0 d'))
      as Hh.
    destruct (Decimal.nzhead (Decimal.D0 d')); congruence.
Qed.

Lemma str_of_int_pos p : str_of_int (Zpos p) = digits_of (Pos.to_uint p).
Proof.
  pose proof (DecimalPos.Unsigned.to_uint_nonnil p) as Hn.
  unfold str_of_int, digits_of. cbn [Z.to_int NilZero.string_of_int].
  unfold NilZero.string_of_uint.
  destruct (Pos.to_uint p); [contradiction|reflexivity ..].
Qed.

Lemma str_of_int_neg p :
  str_of_int (Zneg p) = 45%N :: digits_of (Pos.to_uint p).
Proof.
  pose proof (DecimalPos.Unsigned.to_uint_nonnil p) as Hn.
  unfold str_of_int, digits_of. cbn [Z.to_int NilZero.string_of_int].
  unfold NilZero.string_of_uint.
  destruct (Pos.to_uint p); [contradiction|reflexivity ..].
Qed.

Lemma scan_frac_end rest :
  ends_number rest = true -> scan_frac rest = ([], rest).
Proof.
  destruct rest as [|c r]; [reflexivity|]. intros H.
  apply ends_number_not_digit in H. destruct H as (_ & H & _).
  simpl. now rewrite H.
Qed.

Lemma scan_exp_end rest :
  ends_number rest = true -> scan_exp rest = ([], rest).
Proof.
  destruct rest as [|c r]; [reflexivity|]. intros H.
  apply ends_number_not_digit in H. destruct H as (_ & _ & H).
  simpl. now rewrite H.
Qed.

Lemma scan_number_digits neg p rest :
  int_fits (Zpos p) = true ->
  ends_number rest = true ->
  scan_number neg (digits_of (Pos.to_uint p) ++ rest) =
  Some (PInt (if neg then Zneg p else Zpos p), rest).
Proof.
  intros Hl Hr. unfold scan_number.
  unfold int_fits in Hl. cbn [Z.abs] in Hl. rewrite str_of_int_pos in Hl.
  apply Z.leb_le in Hl.
  assert (Hi : scan_int_part (digits_of (Pos.to_uint p) ++ rest) =
               Some (digits_of (Pos.to_uint p), rest)).
  { destruct (to_uint_head p) as (c & t & E & Hd & H0).
    rewrite <- (span_digits_digits _ rest Hr). rewrite E. cbn [app].
    unfold scan_int_part. now rewrite H0, Hd. }
  rewrite Hi, (scan_frac_end rest Hr), (scan_exp_end rest Hr).
  replace (max_str_digits <? len (digits_of (Pos.to_uint p))) with false
    by (symmetry; apply Z.ltb_ge; exact Hl).
  rewrite digits_value_of_uint, DecimalPos.Unsigned.of_to.
  destruct neg; reflexivity.
Qed.

Lemma scan_value_int f z rest :
  int_fits z = true ->
  ends_number rest = true ->
  scan_value (S f) (str_of_int z ++ rest) = Some (PInt z, rest).
Proof.
  intros Hl Hr. destruct z as [|p|p].
  - change (str_of_int 0) with [48%N]. cbn [app scan_value].
    change (48 =? 34)%N with false. change (48 =? 123)%N with false.
    change (48 =? 91)%N with false. change (48 =? 45)%N with false.
    change (is_digit 48%N) with true. cbv iota.
    unfold scan_number, scan_int_part. change (48 =? 48)%N with true.
    cbv iota. now rewrite (scan_frac_end rest Hr), (scan_exp_end rest Hr).
  - rewrite str_of_int_pos.
    destruct (to_uint_head p) as (c & t & E & Hd & H0).
    pose proof (scan_number_digits false p rest Hl Hr) as Hn.
    rewrite E in *. cbn [app] in *. cbn [scan_value].
    apply is_digit_spec in Hd as Hc.
    repeat match goal with
    | |- context [(c =? ?k)%N] => destruct (N.eqb_spec c k); [lia|]
    end.
    rewrite Hd. exact Hn.
  - rewrite str_of_int_neg. cbn [app scan_value].
    change (45 =? 34)%N with false. change (45 =? 123)%N with false.
    change (45 =? 91)%N with false. change (45 =? 45)%N with true. cbv iota.
    destruct (to_uint_head p) as (c & t & E & Hd & H0).
    pose proof (scan_number_digits true p rest Hl Hr) as Hn.
    rewrite E in *. cbn [app] in *.
    apply is_digit_spec in Hd as Hc.
    change (lit "Infinity") with (73%N :: lit "nfinity"). cbn [strip_prefix].
    destruct (N.eqb_spec 73 c); [lia|]. exact Hn.
Qed.

(** *** The first character of a value *)

Lemma encode_head v :
  plainb v = true ->
  exists c t, encode v = c :: t /\ is_ws c = false /\
    (c =? 93)%N = false /\ (c =? 125)%N = false.
Proof.
  destruct v as [| [|] | [|p|p] | | | |]; try discriminate; intros _;
    try (eexists; eexists; split; [reflexivity|]; repeat split; reflexivity).
  cbn [encode]. rewrite str_of_int_pos.
  destruct (to_uint_head p) as (c & t & E & Hd & _).
  apply is_digit_spec in Hd. exists c, t. split; [exact E|].
  unfold is_ws. rewrite !orb_false_iff, !N.eqb_neq. lia.
Qed.

Lemma skip_ws_encode v rest :
  plainb v = true -> skip_ws (encode v ++ rest) = encode v ++ rest.
Proof.
  intros H. destruct (encode_head v H) as (c & t & E & Hw & _).
  rewrite E. cbn [app skip_ws]. now rewrite Hw.
Qed.

Lemma encode_nonempty v : plainb v = true -> (1 <= length (encode v))%nat.
Proof.
  intros H. destruct (encode_head v H) as (c & t & E & _).
  rewrite E. simpl. lia.
Qed.

(** *** Lists and dicts *)

Lemma join_comma_cons a items :
  join_comma (a :: items) = a ++ join_tail items.
Proof. destruct items; simpl; [now rewrite app_nil_r | reflexivity]. Qed.

Lemma join_tail_length items :
  (length (join_comma items) <= length (join_tail items))%nat.
Proof. destruct items; simpl; lia. Qed.

Lemma join_comma_length items :
  Forall (fun x => (1 <= length x)%nat) items ->
  (length items <= length (join_comma items))%nat.
Proof.
  induction items as [|a items IH]; intros H; [simpl; lia|].
  inversion H as [|? ? Ha H']; subst.
  rewrite join_comma_cons, length_app.
  destruct items as [|b items]; [simpl; lia|].
  specialize (IH H'). cbn [join_tail length] in *. lia.
Qed.

Lemma member_app k v rest :
  member (k, v) ++ rest =
  34%N :: flat_map escape_char k ++ 34%N :: 58%N :: 32%N :: encode v ++ rest.
Proof.
  unfold member. cbn [fst snd]. now rewrite <- !app_assoc, encode_str_app.
Qed.

Lemma dict_set_fresh k v acc :
  ~ In k (map fst acc) -> dict_set k v acc = acc ++ [(k, v)].
Proof.
  induction acc as [|[k' v'] acc IH]; intros H; simpl; [reflexivity|].
  destruct (pystr_eqb k k') eqn:E.
  - apply pystr_eqb_eq in E. subst k'. exfalso. apply H. now left.
  - f_equal. apply IH. intros Hin. apply H. now right.
Qed.

Lemma distinct_NoDup ks : distinct ks = true -> NoDup ks.
Proof.
  induction ks as [|k ks IH]; simpl; intros H; [constructor|].
  apply andb_true_iff in H. destruct H as [H1 H2].
  constructor; [|now apply IH].
  intros Hin. apply negb_true_iff in H1.
  assert (existsb (pystr_eqb k) ks = true); [|congruence].
  apply existsb_exists. exists k. split; [exact Hin|now apply pystr_eqb_eq].
Qed.

Section Loops.
Variable pv : pystr -> option (pyval * pystr).

Lemma scan_elements_last n x acc rest :
  decodes pv x ->
  scan_elements pv (S n) (encode x ++ 93%N :: rest) acc =
  Some (rev acc ++ [x], rest).
Proof.
  intros [_ Hpv]. simpl. rewrite (Hpv (93%N :: rest) eq_refl). simpl.
  unfold rev'. now rewrite rev_append_rev, app_nil_r.
Qed.

Lemma scan_elements_more n x acc r :
  decodes pv x ->
  scan_elements pv (S n) (encode x ++ 44%N :: 32%N :: r) acc =
  scan_elements pv n (skip_ws r) (x :: acc).
Proof.
  intros [_ Hpv]. simpl. rewrite (Hpv (44%N :: 32%N :: r) eq_refl).
  reflexivity.
Qed.

(** The array loop reads back a joined list of values. *)
Lemma scan_elements_join l :
  Forall (decodes pv) l -> l <> [] ->
  forall n acc rest, (length l <= n)%nat ->
    scan_elements pv n (join_comma (map encode l) ++ 93%N :: rest) acc =
    Some (rev acc ++ l, rest).
Proof.
  induction l as [|x l IH]; intros Hl Hne n acc rest Hn; [contradiction|].
  inversion Hl as [|? ? Hx Hl']; subst.
  destruct n as [|n]; [simpl in Hn; lia|].
  cbn [map]. rewrite join_comma_cons, <- app_assoc.
  destruct l as [|y l].
  - now apply scan_elements_last.
  - cbn [map join_tail app].
    rewrite (scan_elements_more n x acc _ Hx).
    inversion Hl' as [|? ? [Hy _] _]; subst.
    rewrite join_comma_cons, <- app_assoc, (skip_ws_encode y _ Hy).
    rewrite app_assoc, <- join_comma_cons.
    change (encode y :: map encode l) with (map encode (y :: l)).
    rewrite IH; [|exact Hl'|discriminate|simpl in *; lia].
    simpl. now rewrite <- app_assoc.
Qed.

Lemma scan_members_last n k v r0 acc rest :
  scanstring r0 [] = Some (k, 58%N :: 32%N :: encode v ++ 125%N :: rest) ->
  decodes pv v ->
  scan_members pv (S n) (34%N :: r0) acc = Some (dict_set k v acc, rest).
Proof.
  intros H [Hv Hpv]. simpl. rewrite H. simpl.
  rewrite (skip_ws_encode v _ Hv), (Hpv (125%N :: rest) eq_refl).
  reflexivity.
Qed.

Lemma scan_members_more n k v r0 acc r :
  scanstring r0 [] =
    Some (k, 58%N :: 32%N :: encode v ++ 44%N :: 32%N :: r) ->
  decodes pv v ->
  scan_members pv (S n) (34%N :: r0) acc =
  scan_members pv n (skip_ws r) (dict_set k v acc).
Proof.
  intros H [Hv Hpv]. simpl. rewrite H. simpl.
  rewrite (skip_ws_encode v _ Hv), (Hpv (44%N :: 32%N :: r) eq_refl).
  reflexivity.
Qed.

(** The object loop reads back a joined list of members with distinct
    keys. *)
Lemma scan_members_join d :
  Forall (fun kv => plain_str (fst kv) = true /\ decodes pv (snd kv)) d ->
  d <> [] ->
  forall n acc rest, (length d <= n)%nat ->
    NoDup (map fst (acc ++ d)) ->
    scan_members pv n (join_comma (map member d) ++ 125%N :: rest) acc =
    Some (acc ++ d, rest).
Proof.
  induction d as [|[k v] d IH]; intros Hd Hne n acc rest Hn Hnd;
    [contradiction|].
  inversion Hd as [|? ? [Hk Hv] Hd']; subst. cbn [fst snd] in *.
  destruct n as [|n]; [simpl in Hn; lia|].
  assert (Hfresh : dict_set k v acc = acc ++ [(k, v)]).
  { apply dict_set_fresh. rewrite map_app in Hnd. cbn [map fst] in Hnd.
    apply NoDup_remove_2 in Hnd. intros Hin. apply Hnd.
    apply in_or_app. now left. }
  cbn [map]. rewrite join_comma_cons, <- app_assoc, member_app.
  destruct d as [|[k2 v2] d].
  - cbn [map join_tail app].
    rewrite (scan_members_last n k v _ acc rest);
      [now rewrite Hfresh| |exact Hv].
    rewrite (scanstring_plain k Hk). reflexivity.
  - cbn [map join_tail app].
    rewrite (scan_members_more n k v _ acc
               (join_comma (map member ((k2, v2) :: d)) ++ 125%N :: rest));
      [| |exact Hv].
    + rewrite Hfresh. cbn [map].
      rewrite join_comma_cons, <- app_assoc, member_app.
      cbn [skip_ws]. change (is_ws 34%N) with false. cbv iota.
      rewrite <- member_app, app_assoc, <- join_comma_cons.
      change (member (k2, v2) :: map member d)
        with (map member ((k2, v2) :: d)).
      rewrite IH; [now rewrite <- app_assoc|exact Hd'|discriminate|
                   simpl in *; lia|now rewrite <- app_assoc].
    + rewrite (scanstring_plain k Hk). reflexivity.
Qed.

End Loops.

Lemma scan_value_list f r :
  skip_ws r = r ->
  (exists c t, r = c :: t /\ (c =? 93)%N = false) ->
  scan_value (S f) (91%N :: r) =
  match scan_elements (scan_value f) (length r) r [] with
  | Some (l, rest) => Some (PList l, rest)
  | None => None
  end.
Proof.
  intros Hr (c & t & E & Hc). cbn [scan_value].
  change (91 =? 34)%N with false. change (91 =? 123)%N with false.
  change (91 =? 91)%N with true. cbv iota.
  rewrite Hr. rewrite E at 1. now rewrite Hc.
Qed.

Lemma scan_value_dict f r :
  skip_ws r = r ->
  (exists c t, r = c :: t /\ (c =? 125)%N = false) ->
  scan_value (S f) (123%N :: r) =
  match scan_members (scan_value f) (length r) r [] with
  | Some (d, rest) => Some (PDict d, rest)
  | None => None
  end.
Proof.
  intros Hr (c & t & E & Hc). cbn [scan_value].
  change (123 =? 34)%N with false. change (123 =? 123)%N with true. cbv iota.
  rewrite Hr. rewrite E at 1. now rewrite Hc.
Qed.

(** *** Values *)

Lemma depth_le_max {A : Type} (f : A -> nat) x l :
  In x l -> (f x <= fold_right (fun y n => Nat.max (f y) n) O l)%nat.
Proof.
  induction l as [|y l IH]; intros H; [contradiction|].
  simpl. destruct H as [->|H]; [lia|]. specialize (IH H). lia.
Qed.

(** With fuel beyond its depth, a plain value is read back from its text,
    whatever follows that cannot continue a number. *)
Lemma scan_value_encode v :
  plainb v = true ->
  forall fuel rest, (depth v < fuel)%nat -> ends_number rest = true ->
    scan_value fuel (encode v ++ rest) = Some (v, rest).
Proof.
  induction v as [| b | z | r | s | l IH | d IH] using pyval_induction;
    intros Hv fuel rest Hf Hr; try discriminate;
    (destruct fuel as [|f]; [lia|]).
  - reflexivity.
  - destruct b; reflexivity.
  - now apply scan_value_int.
  - cbn [encode]. rewrite encode_str_app. cbn [scan_value].
    change (34 =? 34)%N with true. cbv iota.
    now rewrite (scanstring_plain s Hv).
  - cbn [plainb] in Hv. cbn [depth] in Hf.
    destruct l as [|x l]; [reflexivity|].
    assert (Hdec : Forall (decodes (scan_value f)) (x :: l)).
    { rewrite Forall_forall in IH. apply Forall_forall. intros y Hy.
      rewrite forallb_forall in Hv. split; [now apply Hv|].
      intros rest' Hr'. apply IH; [exact Hy|now apply Hv| |exact Hr'].
      pose proof (depth_le_max depth y (x :: l) Hy). lia. }
    cbn [encode]. change (lit "[") with [91%N]. change (lit "]") with [93%N].
    cbn [app]. rewrite <- app_assoc. cbn [app].
    rewrite scan_value_list.
    + rewrite scan_elements_join; [reflexivity|exact Hdec|discriminate|].
      rewrite length_app.
      pose proof (join_comma_length (map encode (x :: l))) as Hlen.
      rewrite length_map in Hlen.
      eapply Nat.le_trans; [|apply Nat.le_add_r].
      apply Hlen. apply Forall_forall. intros e He.
      apply in_map_iff in He. destruct He as (y & <- & Hy).
      apply encode_nonempty. rewrite forallb_forall in Hv. now apply Hv.
    + cbn [map]. rewrite join_comma_cons, <- app_assoc.
      apply skip_ws_encode. inversion Hdec as [|? ? [Hx _] _]. exact Hx.
    + cbn [map]. rewrite join_comma_cons, <- app_assoc.
      inversion Hdec as [|? ? [Hx _] _]; subst.
      destruct (encode_head x Hx) as (c & t & E & _ & H93 & _).
      rewrite E. cbn [app]. eauto.
  - cbn [plainb] in Hv. cbn [depth] in Hf.
    apply andb_true_iff in Hv. destruct Hv as [Hv Hnd].
    apply distinct_NoDup in Hnd.
    destruct d as [|[k x] d]; [reflexivity|].
    assert (Hdec : Forall (fun kv => plain_str (fst kv) = true /\
                                     decodes (scan_value f) (snd kv))
                          ((k, x) :: d)).
    { rewrite Forall_forall in IH. apply Forall_forall. intros kv Hkv.
      rewrite forallb_forall in Hv. specialize (Hv kv Hkv).
      apply andb_true_iff in Hv. destruct Hv as [Hk Hx].
      split; [exact Hk|]. split; [exact Hx|].
      intros rest' Hr'. apply IH; [exact Hkv|exact Hx| |exact Hr'].
      pose proof (depth_le_max (fun kv => depth (snd kv)) kv ((k, x) :: d)
                    Hkv).
      cbv beta in *. lia. }
    cbn [encode]. change (lit "{") with [123%N]. change (lit "}") with [125%N].
    cbn [app]. rewrite <- app_assoc. cbn [app].
    change (fun kv : pystr * pyval =>
              encode_str (fst kv) ++ lit ": " ++ encode (snd kv))
      with member.
    rewrite scan_value_dict.
    + rewrite scan_members_join;
        [reflexivity|exact Hdec|discriminate| |exact Hnd].
      rewrite length_app.
      pose proof (join_comma_length (map member ((k, x) :: d))) as Hlen.
      rewrite length_map in Hlen.
      eapply Nat.le_trans; [|apply Nat.le_add_r].
      apply Hlen. apply Forall_forall. intros e He.
      apply in_map_iff in He. destruct He as (y & <- & Hy).
      unfold member, encode_str. simpl. lia.
    + cbn [map]. rewrite join_comma_cons, <- app_assoc, member_app.
      reflexivity.
    + cbn [map]. rewrite join_comma_cons, <- app_assoc, member_app. eauto.
Qed.

Lemma fold_max_le_join {A : Type} (f : A -> nat) (enc : A -> pystr) l :
  Forall (fun x => (f x <= length (enc x))%nat) l ->
  (fold_right (fun x n => Nat.max (f x) n) O l <=
   length (join_comma (map enc l)))%nat.
Proof.
  induction l as [|x l IH]; intros H; [simpl; lia|].
  inversion H as [|? ? Hx Hl]; subst. specialize (IH Hl).
  cbn [fold_right map]. rewrite join_comma_cons, length_app.
  pose proof (join_tail_length (map enc l)). lia.
Qed.

(** The length of a text is fuel enough for the value it encodes. *)
Lemma depth_le_length v : (depth v <= length (encode v))%nat.
Proof.
  induction v as [| b | z | r | s | l IH | d IH] using pyval_induction;
    try (simpl; lia).
  - cbn [depth encode]. change (lit "[") with [91%N]. cbn [app length].
    rewrite length_app. apply le_n_S.
    eapply Nat.le_trans; [|apply Nat.le_add_r].
    now apply fold_max_le_join.
  - cbn [depth encode]. change (lit "{") with [123%N]. cbn [app length].
    rewrite length_app. apply le_n_S.
    eapply Nat.le_trans; [|apply Nat.le_add_r].
    apply (fold_max_le_join (fun kv => depth (snd kv))).
    apply Forall_forall. intros kv Hkv. rewrite Forall_forall in IH.
    specialize (IH kv Hkv). rewrite !length_app.
    eapply Nat.le_trans; [exact IH|]. lia.
Qed.

(** Decoding the text of a plain value gives the value back. *)
Theorem loads_encode v : plainb v = true -> loads (encode v) = Some v.
Proof.
  intros Hv. unfold loads.
  rewrite <- (app_nil_r (encode v)) at 2.
  rewrite (skip_ws_encode v [] Hv).
  rewrite scan_value_encode; [reflexivity|exact Hv| |reflexivity].
  pose proof (depth_le_length v). lia.
Qed.

(** *** Numbers the decoder normalises or refuses *)

(** A float literal is read as the nearest double, which [repr] writes in
    its own way, and a literal beyond the doubles is infinity. *)
Example floats_are_read_as_doubles :
  loads (lit "1.50") = Some (PFloat (lit "1.5")) /\
  loads (lit "1e2") = Some (PFloat (lit "100.0")) /\
  loads (lit "1e23") = Some (PFloat (lit "1e+23")) /\
  loads (lit "0.1e-6") = Some (PFloat (lit "1e-07")) /\
  loads (lit "0.1") = Some (PFloat (lit "0.1")) /\
  loads (lit "9007199254740993.0") = Some (PFloat (lit "9007199254740992.0")) /\
  loads (lit "-0.0") = Some (PFloat (lit "-0.0")) /\
  loads (lit "1e400") = Some (PFloat (lit "inf")).
Proof. repeat split; vm_compute; reflexivity. Qed.

(** An integer literal of 4300 digits is read, one of 4301 is refused. *)
Example long_integers :
  loads (repeat 57%N 4300) = Some (PInt (10 ^ 4300 - 1)) /\
  loads (repeat 57%N 4301) = None.
Proof. split; vm_compute; reflexivity. Qed.

(** ** What standard output can write *)

Lemma is_ascii_digits d : is_ascii (digits_of d) = true.
Proof.
  unfold digits_of.
  induction d; [reflexivity | exact IHd ..].
Qed.

(** The decimal text of an integer is ASCII. *)
Lemma is_ascii_str_of_int z : is_ascii (str_of_int z) = true.
Proof.
  destruct z as [|p|p]; [reflexivity| |].
  - rewrite str_of_int_pos. apply is_ascii_digits.
  - rewrite str_of_int_neg. exact (is_ascii_digits (Pos.to_uint p)).
Qed.

Lemma printable_cons c ch s :
  printable c (ch :: s) = can_encode c ch && printable c s.
Proof. reflexivity. Qed.

Lemma printable_app c a b :
  printable c (a ++ b) = printable c a && printable c b.
Proof. apply forallb_app. Qed.

(** Every encoding writes ASCII text. *)
Lemma printable_ascii c s : is_ascii s = true -> printable c s = true.
Proof.
  unfold is_ascii, printable. rewrite !forallb_forall. intros H ch Hin.
  unfold can_encode. now rewrite (H ch Hin).
Qed.

Lemma printable_str_of_int c z : printable c (str_of_int z) = true.
Proof. apply printable_ascii, is_ascii_str_of_int. Qed.

(** The success lines need the check mark, a failure line the cross mark
    and the text it reports. *)
Lemma printable_success1 c : printable c success1 = can_encode c check_mark.
Proof.
  unfold success1. rewrite printable_cons.
  rewrite printable_ascii by reflexivity. apply andb_true_r.
Qed.

Lemma printable_success2 c : printable c success2 = can_encode c check_mark.
Proof.
  unfold success2. rewrite printable_cons.
  rewrite printable_ascii by reflexivity. apply andb_true_r.
Qed.

Lemma printable_failure_line c s :
  printable c (failure_line s) = can_encode c cross_mark && printable c s.
Proof.
  unfold failure_line. rewrite printable_cons, printable_app.
  now rewrite (printable_ascii c (lit " Error: ")).
Qed.

Lemma printable_status_line c z :
  printable c (failure_line (str_of_int z)) = can_encode c cross_mark.
Proof.
  rewrite printable_failure_line, printable_str_of_int. apply andb_true_r.
Qed.

(** [print] writes its text or raises, by what the encoding can write. *)
Lemma print_ok c s st :
  printable c s = true ->
  print c s st = (Ok tt, mk_state (stdout st ++ [s]) (posted st)).
Proof. intros H. unfold print. now rewrite H. Qed.

Lemma print_raises c s st :
  printable c s = false -> print c s st = (Raise (encode_error c s), st).
Proof. intros H. unfold print. now rewrite H. Qed.

Lemma bind_print_ok {B : Type} c s (k : M B) st :
  printable c s = true ->
  (print c s ;; k) st = k (mk_state (stdout st ++ [s]) (posted st)).
Proof. intros H. unfold bind. now rewrite print_ok. Qed.

Lemma encode_error_Exception c s :
  isinstance_Exception (encode_error c s) = true.
Proof. reflexivity. Qed.

(** ** How a run settles *)

Lemma settle_caught c e st :
  isinstance_Exception e = true ->
  printable c (failure_line (exn_str e)) = true ->
  settle c (Raise e, st) =
  (mk_state (stdout st ++ [failure_line (exn_str e)]) (posted st), Exit 0).
Proof. intros Hi Hp. cbn [settle]. now rewrite Hi, print_ok. Qed.

Lemma settle_handler_raises c e st :
  isinstance_Exception e = true ->
  printable c (failure_line (exn_str e)) = false ->
  settle c (Raise e, st) =
  (st, Uncaught (encode_error c (failure_line (exn_str e)))).
Proof. intros Hi Hp. cbn [settle]. now rewrite Hi, print_raises. Qed.

Lemma settle_passes c e st :
  isinstance_Exception e = false ->
  settle c (Raise e, st) = (st, Uncaught e).
Proof. intros Hi. cbn [settle]. now rewrite Hi. Qed.

(** A [print] in the handler leaves the posted requests as they are. *)
Lemma posted_settle c r : posted (fst (settle c r)) = posted (snd r).
Proof.
  destruct r as [[u|e] st]; [reflexivity|]. cbn [settle snd].
  destruct (isinstance_Exception e); [|reflexivity].
  unfold print. destruct (printable c (failure_line (exn_str e))); reflexivity.
Qed.

(** ** Runs of the scripts *)

Lemma encodable_payload1 : Json.encodable TestLargeStdin.payload = true.
Proof. vm_compute. reflexivity. Qed.

Lemma encodable_payload2 : Json.encodable TestStdin.payload = true.
Proof. vm_compute. reflexivity. Qed.

Lemma requests_post_eq w url p hs st :
  Json.encodable p = true ->
  requests_post w url p hs st =
  (post_reply w (request_for url hs p),
   mk_state (stdout st) (posted st ++ [request_for url hs p])).
Proof.
  unfold requests_post, Json.dumps, Json.encodable.
  destruct (Json.refusal p); [discriminate|reflexivity].
Qed.

Lemma prompt_size_line1 :
  lit "Prompt size: " ++ str_of_int (len TestLargeStdin.large_content) ++
  lit " bytes" = lit "Prompt size: 61440 bytes".
Proof. vm_compute. reflexivity. Qed.

Lemma prompt_size_line2 :
  lit "Prompt size: " ++ str_of_int (len TestStdin.large_content) ++
  lit " bytes" = lit "Prompt size: 61440 bytes".
Proof. vm_compute. reflexivity. Qed.

Lemma tools_count_line :
  lit "Tools count: " ++ str_of_int (len TestStdin.large_tools) =
  lit "Tools count: 50".
Proof. vm_compute. reflexivity. Qed.

(** The [try] body of [test-large-stdin.py], path by path. *)
Lemma post_and_report1_eq w st :
  TestLargeStdin.post_and_report w st =
  match post_reply w request1 with
  | Raise e => (Raise e, mk_state (stdout st) (posted st ++ [request1]))
  | Ok r =>
      if status_code r =? 200 then
        if can_encode (stdout_codec w) check_mark then
          match json r >>= TestLargeStdin.content_excerpt w with
          | Ok shown =>
              print (stdout_codec w)
                (lit "Response: " ++ format_val (py_repr w) shown ++ lit "...")
                (mk_state (stdout st ++ [success1]) (posted st ++ [request1]))
          | Raise e =>
              (Raise e,
               mk_state (stdout st ++ [success1]) (posted st ++ [request1]))
          end
        else
          (Raise (encode_error (stdout_codec w) success1),
           mk_state (stdout st) (posted st ++ [request1]))
      else
        if can_encode (stdout_codec w) cross_mark then
          print (stdout_codec w) (text r)
            (mk_state
               (stdout st ++ [failure_line (str_of_int (status_code r))])
               (posted st ++ [request1]))
        else
          (Raise (encode_error (stdout_codec w)
                    (failure_line (str_of_int (status_code r)))),
           mk_state (stdout st) (posted st ++ [request1]))
  end.
Proof.
  unfold TestLargeStdin.post_and_report, bind.
  rewrite requests_post_eq by exact encodable_payload1.
  fold request1. destruct (post_reply w request1) as [r|e]; [|reflexivity].
  destruct (status_code r =? 200).
  - change (check_mark :: lit " Success! Large prompt handled correctly")
      with success1.
    unfold print at 1. rewrite printable_success1.
    destruct (can_encode (stdout_codec w) check_mark); [|reflexivity].
    unfold lift. cbn [stdout posted].
    destruct (json r) as [v|e]; [|reflexivity]. cbn [and_then].
    destruct (TestLargeStdin.content_excerpt w v); reflexivity.
  - change (cross_mark :: lit " Error: " ++ str_of_int (status_code r))
      with (failure_line (str_of_int (status_code r))).
    unfold print at 1. rewrite printable_status_line.
    destruct (can_encode (stdout_codec w) cross_mark); reflexivity.
Qed.

(** The [try] body of [test-stdin.py], path by path. *)
Lemma post_and_report2_eq w st :
  TestStdin.post_and_report w st =
  match post_reply w request2 with
  | Raise e => (Raise e, mk_state (stdout st) (posted st ++ [request2]))
  | Ok r =>
      if status_code r =? 200 then
        if can_encode (stdout_codec w) check_mark then
          match json r >>= TestStdin.content_length w with
          | Ok n =>
              (Ok tt,
               mk_state (stdout st ++
                         [success2; lit "Response length: " ++ str_of_int n])
                        (posted st ++ [request2]))
          | Raise e =>
              (Raise e,
               mk_state (stdout st ++ [success2]) (posted st ++ [request2]))
          end
        else
          (Raise (encode_error (stdout_codec w) success2),
           mk_state (stdout st) (posted st ++ [request2]))
      else
        if can_encode (stdout_codec w) cross_mark then
          print (stdout_codec w) (text r)
            (mk_state
               (stdout st ++ [failure_line (str_of_int (status_code r))])
               (posted st ++ [request2]))
        else
          (Raise (encode_error (stdout_codec w)
                    (failure_line (str_of_int (status_code r)))),
           mk_state (stdout st) (posted st ++ [request2]))
  end.
Proof.
  unfold TestStdin.post_and_report, bind.
  rewrite requests_post_eq by exact encodable_payload2.
  fold request2. destruct (post_reply w request2) as [r|e]; [|reflexivity].
  destruct (status_code r =? 200).
  - change (check_mark :: lit " Success! Stdin implementation working")
      with success2.
    unfold print at 1. rewrite printable_success2.
    destruct (can_encode (stdout_codec w) check_mark); [|reflexivity].
    unfold lift. cbn [stdout posted].
    destruct (json r) as [v|e]; [|reflexivity]. cbn [and_then].
    destruct (TestStdin.content_length w v) as [n|e]; [|reflexivity].
    rewrite print_ok.
    + cbn [stdout posted]. now rewrite <- app_assoc.
    + rewrite printable_app, printable_str_of_int.
      now rewrite printable_ascii.
  - change (cross_mark :: lit " Error: " ++ str_of_int (status_code r))
      with (failure_line (str_of_int (status_code r))).
    unfold print at 1. rewrite printable_status_line.
    destruct (can_encode (stdout_codec w) cross_mark); reflexivity.
Qed.

(** A run prints the preamble, which is ASCII and goes through on every
    standard output, runs the [try] body, and settles. *)
Lemma main1_eq w :
  TestLargeStdin.main w =
  settle (stdout_codec w)
    (TestLargeStdin.post_and_report w (mk_state preamble1 [])).
Proof.
  unfold TestLargeStdin.main, run_main,
    TestLargeStdin.test_stdin_implementation.
  rewrite bind_print_ok by (apply printable_ascii; reflexivity).
  rewrite prompt_size_line1.
  rewrite bind_print_ok by (apply printable_ascii; reflexivity).
  cbn [stdout posted initial app]. fold preamble1.
  unfold try_except_Exception, settle.
  destruct (TestLargeStdin.post_and_report w _) as [[u|e] st]; [reflexivity|].
  destruct (isinstance_Exception e); reflexivity.
Qed.

Lemma main2_eq w :
  TestStdin.main w =
  settle (stdout_codec w)
    (TestStdin.post_and_report w (mk_state preamble2 [])).
Proof.
  unfold TestStdin.main, run_main, TestStdin.test_stdin_implementation.
  rewrite bind_print_ok by (apply printable_ascii; reflexivity).
  rewrite prompt_size_line2.
  rewrite bind_print_ok by (apply printable_ascii; reflexivity).
  rewrite tools_count_line.
  rewrite bind_print_ok by (apply printable_ascii; reflexivity).
  cbn [stdout posted initial app].
  change [lit "Testing stdin implementation with large prompt...";
          lit "Prompt size: 61440 bytes"; lit "Tools count: 50"]
    with preamble2.
  unfold try_except_Exception, settle.
  destruct (TestStdin.post_and_report w _) as [[u|e] st]; [reflexivity|].
  destruct (isinstance_Exception e); reflexivity.
Qed.

(** *** The requests a run posts *)

Lemma posts_print c s : posts (print c s) [].
Proof.
  intros st. unfold print. rewrite app_nil_r.
  destruct (printable c s); reflexivity.
Qed.

Lemma posts_lift {A : Type} (r : outcome A) : posts (lift r) [].
Proof. intros st. cbn [lift snd]. now rewrite app_nil_r. Qed.

(** What follows a step posts nothing: the requests are those of the
    step, whether or not it raises. *)
Lemma posts_bind {A B : Type} (m : M A) (f : A -> M B) l :
  posts m l -> (forall a, posts (f a) []) -> posts (bind m f) l.
Proof.
  intros Hm Hf st. unfold bind. specialize (Hm st).
  destruct (m st) as [[a|e] st']; cbn [snd] in *; [|exact Hm].
  now rewrite Hf, app_nil_r.
Qed.

Lemma posts_requests_post w url p hs :
  Json.encodable p = true ->
  posts (requests_post w url p hs) [request_for url hs p].
Proof. intros E st. now rewrite requests_post_eq. Qed.

Create HintDb posting.
#[local] Hint Resolve posts_print posts_lift : posting.

Lemma posts_post_and_report1 w :
  posts (TestLargeStdin.post_and_report w) [request1].
Proof.
  unfold TestLargeStdin.post_and_report.
  apply posts_bind; [exact (posts_requests_post _ _ _ _ encodable_payload1)|].
  intros r. destruct (status_code r =? 200);
    repeat (apply posts_bind; [auto with posting | intros ?]);
    auto with posting.
Qed.

Lemma posts_post_and_report2 w :
  posts (TestStdin.post_and_report w) [request2].
Proof.
  unfold TestStdin.post_and_report.
  apply posts_bind; [exact (posts_requests_post _ _ _ _ encodable_payload2)|].
  intros r. destruct (status_code r =? 200);
    repeat (apply posts_bind; [auto with posting | intros ?]);
    auto with posting.
Qed.

(** Every run posts one request, the same whatever the world does. *)
Lemma posted_main1 w : posted (fst (TestLargeStdin.main w)) = [request1].
Proof.
  rewrite main1_eq, posted_settle. exact (posts_post_and_report1 w _).
Qed.

Lemma posted_main2 w : posted (fst (TestStdin.main w)) = [request2].
Proof.
  rewrite main2_eq, posted_settle. exact (posts_post_and_report2 w _).
Qed.

(** ** The request body *)

Lemma plain_payload1 : plainb TestLargeStdin.payload = true.
Proof. vm_compute. reflexivity. Qed.

Lemma plain_payload2 : plainb TestStdin.payload = true.
Proof. vm_compute. reflexivity. Qed.

Lemma body1_round_trip :
  is_ascii (req_body request1) = true /\
  Json.loads (req_body request1) = Some TestLargeStdin.payload.
Proof.
  split; [vm_compute; reflexivity | exact (loads_encode _ plain_payload1)].
Qed.

Lemma body2_round_trip :
  is_ascii (req_body request2) = true /\
  Json.loads (req_body request2) = Some TestStdin.payload.
Proof.
  split; [vm_compute; reflexivity | exact (loads_encode _ plain_payload2)].
Qed.

(** C7: in every run of either script exactly one request is posted; its
    body is ASCII text, so UTF-8 sends it as it is, and decoding it gives
    back the payload the script built, field for field. *)
Theorem posted_body_decodes_to_payload (w : world) :
  (exists rq,
     posted (fst (TestLargeStdin.main w)) = [rq] /\
     is_ascii (req_body rq) = true /\
     Json.loads (req_body rq) = Some TestLargeStdin.payload) /\
  (exists rq,
     posted (fst (TestStdin.main w)) = [rq] /\
     is_ascii (req_body rq) = true /\
     Json.loads (req_body rq) = Some TestStdin.payload).
Proof.
  split.
  - exists request1. split; [apply posted_main1 | exact body1_round_trip].
  - exists request2. split; [apply posted_main2 | exact body2_round_trip].
Qed.

(** C9: the payload of [test-large-stdin.py] is a dict with exactly the
    keys [model] and [messages], in that order; it has no [tools] key. *)
Theorem payload_keys_of_test_large_stdin :
  exists d,
    TestLargeStdin.payload = PDict d /\
    keys d = [lit "model"; lit "messages"] /\
    lookup (lit "tools") d = None.
Proof.
  eexists. split; [reflexivity|]. split; vm_compute; reflexivity.
Qed.

(** C10: two runs of the same script post the same request, whatever the
    command line, the environment and the server of each run are; its body
    is the text of the payload the script defines, which is built from
    nothing outside the script. *)
Theorem payload_is_the_same_in_every_world (w1 w2 : world) :
  (posted (fst (TestLargeStdin.main w1)) =
     posted (fst (TestLargeStdin.main w2)) /\
   map req_body (posted (fst (TestLargeStdin.main w1))) =
     [Json.encode TestLargeStdin.payload]) /\
  (posted (fst (TestStdin.main w1)) = posted (fst (TestStdin.main w2)) /\
   map req_body (posted (fst (TestStdin.main w1))) =
     [Json.encode TestStdin.payload]).
Proof.
  split.
  - rewrite (posted_main1 w1), (posted_main1 w2). split; reflexivity.
  - rewrite (posted_main2 w1), (posted_main2 w2). split; reflexivity.
Qed.

(** ** Runs by what the server answers *)

(** A run in a given world, followed along the path it takes. *)
Ltac run1 := rewrite main1_eq, post_and_report1_eq; reflexivity.
Ltac run2 := rewrite main2_eq, post_and_report2_eq; reflexivity.

(** [s[:200]] is the first 200 items of [s]. *)
Lemma slice_to_200 {A : Type} (s : list A) : slice_to s 200 = firstn 200 s.
Proof. reflexivity. Qed.

(** The POST raised: the exception meets the handler after the preamble. *)
Lemma main1_of_post_raise w e :
  post_reply w request1 = Raise e ->
  TestLargeStdin.main w =
  settle (stdout_codec w) (Raise e, mk_state preamble1 [request1]).
Proof. intros Hp. now rewrite main1_eq, post_and_report1_eq, Hp. Qed.

Lemma main2_of_post_raise w e :
  post_reply w request2 = Raise e ->
  TestStdin.main w =
  settle (stdout_codec w) (Raise e, mk_state preamble2 [request2]).
Proof. intros Hp. now rewrite main2_eq, post_and_report2_eq, Hp. Qed.

(** A 200 response on which parsing or extraction raises: the exception
    meets the handler after the success line. *)
Lemma main1_of_parse_failure w r e :
  post_reply w request1 = Ok r -> status_code r = 200 ->
  can_encode (stdout_codec w) check_mark = true ->
  json r >>= TestLargeStdin.content_excerpt w = Raise e ->
  TestLargeStdin.main w =
  settle (stdout_codec w)
    (Raise e, mk_state (preamble1 ++ [success1]) [request1]).
Proof.
  intros Hp Hs Hm He.
  now rewrite main1_eq, post_and_report1_eq, Hp, Hs, Hm, He.
Qed.

Lemma main2_of_parse_failure w r e :
  post_reply w request2 = Ok r -> status_code r = 200 ->
  can_encode (stdout_codec w) check_mark = true ->
  json r >>= TestStdin.content_length w = Raise e ->
  TestStdin.main w =
  settle (stdout_codec w)
    (Raise e, mk_state (preamble2 ++ [success2]) [request2]).
Proof.
  intros Hp Hs Hm He.
  now rewrite main2_eq, post_and_report2_eq, Hp, Hs, Hm, He.
Qed.

(** An [Exception] whose failure line standard output can write is
    reported after what was printed, and the run ends with exit code 0. *)
Lemma settle_reports c e printed rqs :
  isinstance_Exception e = true ->
  can_encode c cross_mark = true ->
  printable c (exn_str e) = true ->
  settle c (Raise e, mk_state printed rqs) =
  (mk_state (printed ++ [failure_line (exn_str e)]) rqs, Exit 0).
Proof.
  intros Hi Hm Hp. apply settle_caught; [exact Hi|].
  now rewrite printable_failure_line, Hm, Hp.
Qed.

(** ** A 200 response of the expected shape *)

(** C5, as stated, fails in three ways.  On an ASCII standard output the
    [print] of the success marker raises, the handler's [print] of the
    failure marker raises again, and either script stops after the preamble
    on an uncaught [UnicodeEncodeError].  On a UTF-8 one, a content that is
    a lone surrogate (the body decodes to it) cannot be written:
    [test-large-stdin.py] prints the success marker and then a failure
    marker in place of the excerpt.  And a body that is the JSON text of a
    value of the expected shape but holds an integer of 4301 digits is
    refused by the decoder: [response.json()] raises, and a failure marker
    follows the success marker. *)
Lemma success_is_not_always_reported :
  (TestLargeStdin.main (ascii_world_of (Ok hello_response)) =
     (mk_state preamble1 [request1], Uncaught cross_mark_refused) /\
   TestStdin.main (ascii_world_of (Ok hello_response)) =
     (mk_state preamble2 [request2], Uncaught cross_mark_refused)) /\
  (Json.loads (text (response_with (PStr lone_surrogate))) =
     Some (body_with (PStr lone_surrogate)) /\
   expected_shape (body_with (PStr lone_surrogate)) lone_surrogate /\
   TestLargeStdin.main (world_of (Ok (response_with (PStr lone_surrogate)))) =
     (mk_state (preamble1 ++ [success1; failure_line surrogate_refused])
               [request1],
      Exit 0)) /\
  (expected_shape huge_number_body (lit "hello") /\
   text huge_number_response = Json.encode huge_number_body /\
   Json.loads (text huge_number_response) = None /\
   TestLargeStdin.main (world_of (Ok huge_number_response)) =
     (mk_state (preamble1 ++
                [success1; failure_line (exn_str too_many_digits)])
               [request1],
      Exit 0) /\
   TestStdin.main (world_of (Ok huge_number_response)) =
     (mk_state (preamble2 ++
                [success2; failure_line (exn_str too_many_digits)])
               [request2],
      Exit 0)).
Proof.
  split; [split; [run1 | run2]|].
  split; [split; [vm_compute; reflexivity|]; split; [reflexivity | run1]|].
  split; [reflexivity|]. split; [reflexivity|].
  split; [vm_compute; reflexivity|]. split; [run1 | run2].
Qed.

(** C5, amended: on a 200 response that [response.json()] decodes to a
    value with a string [c] at [choices[0].message.content], and with a
    standard output that can write the check mark, [test-large-stdin.py]
    prints the success marker and then the first 200 characters of [c]
    between [Response: ] and three dots, provided standard output can
    write those characters, and [test-stdin.py] prints the success marker
    and then the number of characters of [c]; both end with exit code 0. *)
Theorem success_is_reported (w : world) (r : response) (v : pyval)
    (c : pystr) :
  can_encode (stdout_codec w) check_mark = true ->
  status_code r = 200 ->
  json r = Ok v ->
  expected_shape v c ->
  (post_reply w request1 = Ok r ->
   printable (stdout_codec w) (firstn 200 c) = true ->
   TestLargeStdin.main w =
     (mk_state (preamble1 ++
                [success1; lit "Response: " ++ firstn 200 c ++ lit "..."])
               [request1],
      Exit 0)) /\
  (post_reply w request2 = Ok r ->
   TestStdin.main w =
     (mk_state (preamble2 ++
                [success2;
                 lit "Response length: " ++ str_of_int (Z.of_nat (length c))])
               [request2],
      Exit 0)).
Proof.
  intros Hm Hs Hj Hv. apply (content_lookup_Ok w) in Hv.
  split.
  - intros Hp Hc.
    rewrite main1_eq, post_and_report1_eq, Hp, Hs, Hm, Hj.
    cbn [Z.eqb Pos.eqb and_then].
    rewrite content_excerpt_eq, Hv.
    cbn [and_then getitem_slice_to format_val]. rewrite slice_to_200.
    rewrite print_ok.
    + cbn [settle stdout posted app]. now rewrite <- app_assoc.
    + rewrite !printable_app, Hc. reflexivity.
  - intros Hp.
    rewrite main2_eq, post_and_report2_eq, Hp, Hs, Hm, Hj.
    cbn [Z.eqb Pos.eqb and_then].
    rewrite content_length_eq, Hv. reflexivity.
Qed.

Lemma success_is_reported_witness :
  TestLargeStdin.main (world_of (Ok (response_with (PStr long_content)))) =
    (mk_state (preamble1 ++
               [success1; lit "Response: " ++ repeat 97%N 200 ++ lit "..."])
              [request1], Exit 0) /\
  TestStdin.main (world_of (Ok (response_with (PStr long_content)))) =
    (mk_state (preamble2 ++ [success2; lit "Response length: 250"])
              [request2], Exit 0).
Proof.
  destruct (success_is_reported
              (world_of (Ok (response_with (PStr long_content))))
              (response_with (PStr long_content))
              (body_with (PStr long_content)) long_content
              eq_refl eq_refl eq_refl eq_refl) as [H1 H2].
  split; [exact (H1 eq_refl eq_refl) | exact (H2 eq_refl)].
Defined.

(** The mocked body of the example is JSON text for [hello_body], and the
    run on it shows the whole of [hello]. *)
Example hello_text_decodes : Json.loads hello_text = Some hello_body.
Proof. vm_compute. reflexivity. Qed.

Example hello_is_shown :
  TestLargeStdin.main (world_of (Ok hello_response)) =
    (mk_state (preamble1 ++ [success1; lit "Response: hello..."])
              [request1], Exit 0) /\
  TestStdin.main (world_of (Ok hello_response)) =
    (mk_state (preamble2 ++ [success2; lit "Response length: 5"])
              [request2], Exit 0).
Proof. split; [run1 | run2]. Qed.

(** ** Any other status code *)

(** C6, as stated, fails on an ASCII standard output: the [print] of the
    status raises on the cross mark, the handler's [print] raises on it
    again, nothing is printed after the preamble and the process ends on
    the uncaught [UnicodeEncodeError], not with exit code 0. *)
Lemma http_error_is_not_always_reported :
  status_code server_error_response <> 200 /\
  TestLargeStdin.main (ascii_world_of (Ok server_error_response)) =
    (mk_state preamble1 [request1], Uncaught cross_mark_refused) /\
  TestStdin.main (ascii_world_of (Ok server_error_response)) =
    (mk_state preamble2 [request2], Uncaught cross_mark_refused).
Proof.
  split; [discriminate|]. split; [run1 | run2].
Qed.

(** C6, amended: on a response whose status code is not 200, and with a
    standard output that can write the cross mark and the body, both
    scripts print the failure marker with the status code, then the raw
    body, and end with exit code 0. *)
Theorem http_error_is_reported (w : world) (r : response) :
  can_encode (stdout_codec w) cross_mark = true ->
  printable (stdout_codec w) (text r) = true ->
  status_code r <> 200 ->
  (post_reply w request1 = Ok r ->
   TestLargeStdin.main w =
     (mk_state (preamble1 ++
                [failure_line (str_of_int (status_code r)); text r])
               [request1],
      Exit 0)) /\
  (post_reply w request2 = Ok r ->
   TestStdin.main w =
     (mk_state (preamble2 ++
                [failure_line (str_of_int (status_code r)); text r])
               [request2],
      Exit 0)).
Proof.
  intros Hm Ht Hs. apply Z.eqb_neq in Hs. split; intros Hp.
  - rewrite main1_eq, post_and_report1_eq, Hp, Hs, Hm, print_ok by exact Ht.
    cbn [settle stdout posted app]. now rewrite <- app_assoc.
  - rewrite main2_eq, post_and_report2_eq, Hp, Hs, Hm, print_ok by exact Ht.
    cbn [settle stdout posted app]. now rewrite <- app_assoc.
Qed.

Lemma http_error_is_reported_witness :
  TestLargeStdin.main (world_of (Ok server_error_response)) =
    (mk_state (preamble1 ++
               [cross_mark :: lit " Error: 500"; lit "server error"])
              [request1], Exit 0) /\
  TestStdin.main (world_of (Ok server_error_response)) =
    (mk_state (preamble2 ++
               [cross_mark :: lit " Error: 500"; lit "server error"])
              [request2], Exit 0).
Proof.
  assert (H : status_code server_error_response <> 200) by (simpl; lia).
  destruct (http_error_is_reported (world_of (Ok server_error_response))
              server_error_response eq_refl eq_refl H) as [H1 H2].
  split; [exact (H1 eq_refl) | exact (H2 eq_refl)].
Defined.

(** ** A 200 response that cannot be read *)

(** C8, as stated, fails on an ASCII standard output: neither marker can
    be written, nothing is printed after the preamble, and the process ends
    on the uncaught [UnicodeEncodeError] of the handler's [print]. *)
Lemma malformed_200_without_markers :
  malformed_200 no_choices_response /\
  TestLargeStdin.main (ascii_world_of (Ok no_choices_response)) =
    (mk_state preamble1 [request1], Uncaught cross_mark_refused) /\
  TestStdin.main (ascii_world_of (Ok no_choices_response)) =
    (mk_state preamble2 [request2], Uncaught cross_mark_refused) /\
  malformed_200 html_response /\
  TestLargeStdin.main (ascii_world_of (Ok html_response)) =
    (mk_state preamble1 [request1], Uncaught cross_mark_refused) /\
  TestStdin.main (ascii_world_of (Ok html_response)) =
    (mk_state preamble2 [request2], Uncaught cross_mark_refused).
Proof.
  split; [split; [reflexivity|]; right; eexists; split; reflexivity|].
  split; [run1|]. split; [run2|].
  split; [split; [reflexivity|]; left; eexists; split; reflexivity|].
  split; [run1 | run2].
Qed.



(** On a malformed 200 response, parsing or extraction raises an
    [Exception], whatever is done with the content. *)
Lemma malformed_200_raises w r {A : Type} (f : pyval -> outcome A) :
  malformed_200 r ->
  exists e,
    json r >>= (fun v => content_lookup w v >>= f) = Raise e /\
    isinstance_Exception e = true.
Proof.
  intros [_ [[e [Hj He]] | [v [Hj Hv]]]]; rewrite Hj; cbn [and_then].
  - exists e. split; [reflexivity|].
    unfold isinstance_Exception. now rewrite He.
  - destruct (content_lookup_missing w v Hv) as [e [He Hi]].
    exists e. rewrite He. split; [reflexivity | exact Hi].
Qed.

(** C8, amended: on a 200 response whose body is not JSON, or is JSON
    without [choices[0].message.content], and with a standard output that
    can write both markers, both scripts print the success marker first,
    then meet an exception of the parsing or of the extraction; when
    standard output can write the text of that exception they print the
    failure marker with it after the success marker, and end with exit
    code 0. *)
Theorem malformed_200_prints_both_markers (w : world) (r : response) :
  writes_markers (stdout_codec w) ->
  malformed_200 r ->
  (post_reply w request1 = Ok r ->
   exists e,
     json r >>= TestLargeStdin.content_excerpt w = Raise e /\
     (printable (stdout_codec w) (exn_str e) = true ->
      TestLargeStdin.main w =
        (mk_state (preamble1 ++ [success1; failure_line (exn_str e)])
                  [request1],
         Exit 0))) /\
  (post_reply w request2 = Ok r ->
   exists e,
     json r >>= TestStdin.content_length w = Raise e /\
     (printable (stdout_codec w) (exn_str e) = true ->
      TestStdin.main w =
        (mk_state (preamble2 ++ [success2; failure_line (exn_str e)])
                  [request2],
         Exit 0))).
Proof.
  intros [Hc Hx] Hr. pose proof Hr as [Hs _]. split; intros Hp.
  - destruct (malformed_200_raises w r (fun x => getitem_slice_to x 200) Hr)
      as [e [He Hi]].
    exists e. split; [exact He|]. intros Ht.
    rewrite (main1_of_parse_failure w r e Hp Hs Hc He).
    rewrite settle_reports by assumption. now rewrite <- app_assoc.
  - destruct (malformed_200_raises w r py_len Hr) as [e [He Hi]].
    exists e. split; [exact He|]. intros Ht.
    rewrite (main2_of_parse_failure w r e Hp Hs Hc He).
    rewrite settle_reports by assumption. now rewrite <- app_assoc.
Qed.

Lemma malformed_200_prints_both_markers_witness :
  writes_markers (stdout_codec (world_of (Ok no_choices_response))) /\
  malformed_200 no_choices_response /\
  TestLargeStdin.main (world_of (Ok no_choices_response)) =
    (mk_state (preamble1 ++ [success1; cross_mark :: lit " Error: 'choices'"])
              [request1], Exit 0) /\
  TestStdin.main (world_of (Ok no_choices_response)) =
    (mk_state (preamble2 ++ [success2; cross_mark :: lit " Error: 'choices'"])
              [request2], Exit 0).
Proof.
  assert (Hm : writes_markers
                 (stdout_codec (world_of (Ok no_choices_response))))
    by (split; reflexivity).
  assert (H : malformed_200 no_choices_response).
  { split; [reflexivity|]. right. eexists. split; reflexivity. }
  split; [exact Hm|]. split; [exact H|].
  destruct (malformed_200_prints_both_markers
              (world_of (Ok no_choices_response)) no_choices_response Hm H)
    as [H1 H2].
  split.
  - destruct (H1 eq_refl) as [e [He Hrun]].
    injection He as <-. exact (Hrun eq_refl).
  - destruct (H2 eq_refl) as [e [He Hrun]].
    injection He as <-. exact (Hrun eq_refl).
Defined.

(** A 200 that carries an HTML page: the success line, then the decoder's
    complaint. *)
Example html_page_prints_both_markers :
  TestLargeStdin.main (world_of (Ok html_response)) =
    (mk_state
       (preamble1 ++
        [success1;
         cross_mark ::
           lit " Error: Expecting value: line 1 column 1 (char 0)"])
       [request1],
     Exit 0).
Proof. run1. Qed.

(** ** Exceptions inside the [try] *)

(** An exception from any of the three places leaves the [try] body, after
    the preamble or after the success line. *)
Lemma raised_in_try1 w e :
  raised_in_try w request1 (TestLargeStdin.content_excerpt w) e ->
  exists printed,
    (printed = preamble1 \/ printed = preamble1 ++ [success1]) /\
    TestLargeStdin.main w =
    settle (stdout_codec w) (Raise e, mk_state printed [request1]).
Proof.
  intros [Hp | r Hp Hs Hm Hj | r v Hp Hs Hm Hj Hx].
  - exists preamble1. split; [now left|]. now apply main1_of_post_raise.
  - exists (preamble1 ++ [success1]). split; [now right|].
    apply (main1_of_parse_failure w r e Hp Hs Hm). now rewrite Hj.
  - exists (preamble1 ++ [success1]). split; [now right|].
    apply (main1_of_parse_failure w r e Hp Hs Hm). now rewrite Hj.
Qed.

Lemma raised_in_try2 w e :
  raised_in_try w request2 (TestStdin.content_length w) e ->
  exists printed,
    (printed = preamble2 \/ printed = preamble2 ++ [success2]) /\
    TestStdin.main w =
    settle (stdout_codec w) (Raise e, mk_state printed [request2]).
Proof.
  intros [Hp | r Hp Hs Hm Hj | r v Hp Hs Hm Hj Hx].
  - exists preamble2. split; [now left|]. now apply main2_of_post_raise.
  - exists (preamble2 ++ [success2]). split; [now right|].
    apply (main2_of_parse_failure w r e Hp Hs Hm). now rewrite Hj.
  - exists (preamble2 ++ [success2]). split; [now right|].
    apply (main2_of_parse_failure w r e Hp Hs Hm). now rewrite Hj.
Qed.

(** C3, as stated, fails in two ways.  An exception that is not an
    [Exception] passes the [except Exception] clause: a [KeyboardInterrupt]
    raised while the request is in flight is not caught, no failure marker
    is printed, and the process ends on it.  And on an ASCII standard
    output the handler cannot write the failure marker: for a refused
    connection its [print] raises [UnicodeEncodeError], nothing is printed
    after the preamble, and the process ends on that exception. *)
Lemma exception_is_not_always_reported :
  (raised_in_try (world_of (Raise interrupted)) request1
     (TestLargeStdin.content_excerpt (world_of (Raise interrupted)))
     interrupted /\
   TestLargeStdin.main (world_of (Raise interrupted)) =
     (mk_state preamble1 [request1], Uncaught interrupted) /\
   raised_in_try (world_of (Raise interrupted)) request2
     (TestStdin.content_length (world_of (Raise interrupted)))
     interrupted /\
   TestStdin.main (world_of (Raise interrupted)) =
     (mk_state preamble2 [request2], Uncaught interrupted)) /\
  (isinstance_Exception connection_refused = true /\
   raised_in_try (ascii_world_of (Raise connection_refused)) request1
     (TestLargeStdin.content_excerpt
        (ascii_world_of (Raise connection_refused)))
     connection_refused /\
   TestLargeStdin.main (ascii_world_of (Raise connection_refused)) =
     (mk_state preamble1 [request1], Uncaught cross_mark_refused) /\
   raised_in_try (ascii_world_of (Raise connection_refused)) request2
     (TestStdin.content_length (ascii_world_of (Raise connection_refused)))
     connection_refused /\
   TestStdin.main (ascii_world_of (Raise connection_refused)) =
     (mk_state preamble2 [request2], Uncaught cross_mark_refused)).
Proof.
  split.
  - split; [apply raised_by_post; reflexivity|].
    split; [run1|].
    split; [apply raised_by_post; reflexivity|].
    run2.
  - split; [reflexivity|].
    split; [apply raised_by_post; reflexivity|].
    split; [run1|].
    split; [apply raised_by_post; reflexivity|].
    run2.
Qed.

(** C3, amended: every exception that is an instance of [Exception] and is
    raised by the POST, by the parsing of the response or by the extraction
    of the keys is caught by the script's test function; when standard
    output can write the cross mark and the exception's string, the last
    text printed, after the preamble or after the success line, is the
    failure marker with that string, nothing is re-raised, and the process
    ends with exit code 0. *)
Theorem exception_is_caught_and_reported (w : world) (e : exn) :
  isinstance_Exception e = true ->
  can_encode (stdout_codec w) cross_mark = true ->
  printable (stdout_codec w) (exn_str e) = true ->
  (raised_in_try w request1 (TestLargeStdin.content_excerpt w) e ->
   exists printed,
     (printed = preamble1 \/ printed = preamble1 ++ [success1]) /\
     TestLargeStdin.main w =
       (mk_state (printed ++ [failure_line (exn_str e)]) [request1],
        Exit 0)) /\
  (raised_in_try w request2 (TestStdin.content_length w) e ->
   exists printed,
     (printed = preamble2 \/ printed = preamble2 ++ [success2]) /\
     TestStdin.main w =
       (mk_state (printed ++ [failure_line (exn_str e)]) [request2],
        Exit 0)).
Proof.
  intros Hi Hm Ht. split; intros H.
  - destruct (raised_in_try1 w e H) as [printed [Hpr E]]. exists printed.
    split; [exact Hpr|]. rewrite E. now apply settle_reports.
  - destruct (raised_in_try2 w e H) as [printed [Hpr E]]. exists printed.
    split; [exact Hpr|]. rewrite E. now apply settle_reports.
Qed.

Lemma exception_is_caught_and_reported_witness :
  isinstance_Exception connection_refused = true /\
  (exists printed,
     (printed = preamble1 \/ printed = preamble1 ++ [success1]) /\
     TestLargeStdin.main (world_of (Raise connection_refused)) =
       (mk_state (printed ++ [cross_mark :: lit " Error: Connection refused"])
                 [request1], Exit 0)) /\
  (exists printed,
     (printed = preamble2 \/ printed = preamble2 ++ [success2]) /\
     TestStdin.main (world_of (Raise connection_refused)) =
       (mk_state (printed ++ [cross_mark :: lit " Error: Connection refused"])
                 [request2], Exit 0)).
Proof.
  split; [reflexivity|].
  destruct (exception_is_caught_and_reported
              (world_of (Raise connection_refused)) connection_refused
              eq_refl eq_refl eq_refl)
    as [H1 H2].
  split; [apply H1 | apply H2]; apply raised_by_post; reflexivity.
Defined.

(** ** What a run depends on, and how it ends *)

(** With the keys present, a run on a 200 response is settled by the
    content and by what standard output can write. *)
Lemma main1_of_content w r v x :
  post_reply w request1 = Ok r -> status_code r = 200 ->
  json r = Ok v -> content_at v = Some x ->
  TestLargeStdin.main w =
  settle (stdout_codec w)
    (if can_encode (stdout_codec w) check_mark then
       match getitem_slice_to x 200 with
       | Ok shown =>
           print (stdout_codec w)
             (lit "Response: " ++ format_val (py_repr w) shown ++ lit "...")
             (mk_state (preamble1 ++ [success1]) [request1])
       | Raise e => (Raise e, mk_state (preamble1 ++ [success1]) [request1])
       end
     else
       (Raise (encode_error (stdout_codec w) success1),
        mk_state preamble1 [request1])).
Proof.
  intros Hp Hs Hj Hx. apply (content_lookup_Ok w) in Hx.
  rewrite main1_eq, post_and_report1_eq, Hp, Hs, Hj.
  cbn [Z.eqb Pos.eqb and_then]. rewrite content_excerpt_eq, Hx.
  cbn [and_then].
  destruct (can_encode (stdout_codec w) check_mark); [|reflexivity].
  destruct (getitem_slice_to x 200); reflexivity.
Qed.

Lemma main2_of_content w r v x :
  post_reply w request2 = Ok r -> status_code r = 200 ->
  json r = Ok v -> content_at v = Some x ->
  TestStdin.main w =
  settle (stdout_codec w)
    (if can_encode (stdout_codec w) check_mark then
       match py_len x with
       | Ok n =>
           (Ok tt,
            mk_state (preamble2 ++
                      [success2; lit "Response length: " ++ str_of_int n])
                     [request2])
       | Raise e => (Raise e, mk_state (preamble2 ++ [success2]) [request2])
       end
     else
       (Raise (encode_error (stdout_codec w) success2),
        mk_state preamble2 [request2])).
Proof.
  intros Hp Hs Hj Hx. apply (content_lookup_Ok w) in Hx.
  rewrite main2_eq, post_and_report2_eq, Hp, Hs, Hj.
  cbn [Z.eqb Pos.eqb and_then]. rewrite content_length_eq, Hx.
  cbn [and_then].
  destruct (can_encode (stdout_codec w) check_mark); [|reflexivity].
  destruct (py_len x); reflexivity.
Qed.

(** The handler reports an exception whose text is ASCII. *)
Ltac report_failure :=
  rewrite settle_reports;
  [ now rewrite <- app_assoc
  | reflexivity
  | assumption
  | apply printable_ascii; reflexivity ].

(** X1: on a 200 response that has the keys, and with a standard output
    that can write both markers, [test-large-stdin.py] shows the first 200
    characters of a string content and the [repr] of the first 200 elements
    of a list content, when standard output can write them; any other
    content (null, a number, a boolean, an object) cannot be sliced, and the
    run prints the success marker and then the failure marker with the
    complaint.  The exit code is 0 in every case. *)
Theorem test_large_stdin_by_content_kind (w : world) (r : response)
    (v x : pyval) :
  writes_markers (stdout_codec w) ->
  post_reply w request1 = Ok r -> status_code r = 200 ->
  json r = Ok v -> content_at v = Some x ->
  match x with
  | PStr s =>
      printable (stdout_codec w) (firstn 200 s) = true ->
      TestLargeStdin.main w =
        (mk_state (preamble1 ++
                   [success1; lit "Response: " ++ firstn 200 s ++ lit "..."])
                  [request1], Exit 0)
  | PList l =>
      printable (stdout_codec w) (py_repr w (PList (firstn 200 l))) = true ->
      TestLargeStdin.main w =
        (mk_state (preamble1 ++
                   [success1;
                    lit "Response: " ++ py_repr w (PList (firstn 200 l)) ++
                    lit "..."])
                  [request1], Exit 0)
  | PDict _ =>
      exists e,
        TestLargeStdin.main w =
          (mk_state (preamble1 ++ [success1; failure_line (exn_str e)])
                    [request1], Exit 0)
  | _ =>
      TestLargeStdin.main w =
        (mk_state (preamble1 ++
                   [success1;
                    failure_line (lit "'" ++ type_name x ++
                                  lit "' object is not subscriptable")])
                  [request1], Exit 0)
  end.
Proof.
  intros [Hc Hx'] Hp Hs Hj Hx.
  rewrite (main1_of_content w r v x Hp Hs Hj Hx), Hc.
  destruct x; cbn [getitem_slice_to format_val]; try report_failure.
  - intros Ht. rewrite slice_to_200, print_ok.
    + cbn [settle stdout posted]. now rewrite <- app_assoc.
    + rewrite !printable_app, Ht. reflexivity.
  - intros Ht. rewrite slice_to_200, print_ok.
    + cbn [settle stdout posted]. now rewrite <- app_assoc.
    + rewrite !printable_app, Ht. reflexivity.
  - eexists. report_failure.
Qed.

Lemma test_large_stdin_by_content_kind_witness :
  TestLargeStdin.main (world_of (Ok (response_with PNone))) =
    (mk_state (preamble1 ++
               [success1;
                cross_mark ::
                  lit " Error: 'NoneType' object is not subscriptable"])
              [request1], Exit 0) /\
  TestLargeStdin.main
    (world_of (Ok (response_with (PList [PStr (lit "a"); PInt 2; PNone])))) =
    (mk_state (preamble1 ++ [success1; lit "Response: ['a', 2, None]..."])
              [request1], Exit 0).
Proof.
  assert (Hm : writes_markers utf8_codec) by (split; reflexivity).
  split.
  - exact (test_large_stdin_by_content_kind
             (world_of (Ok (response_with PNone))) (response_with PNone)
             (body_with PNone) PNone Hm eq_refl eq_refl eq_refl eq_refl).
  - exact (test_large_stdin_by_content_kind
             (world_of (Ok (response_with
                              (PList [PStr (lit "a"); PInt 2; PNone]))))
             (response_with (PList [PStr (lit "a"); PInt 2; PNone]))
             (body_with (PList [PStr (lit "a"); PInt 2; PNone]))
             (PList [PStr (lit "a"); PInt 2; PNone])
             Hm eq_refl eq_refl eq_refl eq_refl eq_refl).
Defined.

(** X2: on a 200 response that has the keys, and with a standard output
    that can write both markers, [test-stdin.py] prints the length of the
    content when it is a string, a list or an object (the number of
    characters, elements or keys); for null, a number or a boolean it prints
    the success marker and then the failure marker with the complaint of
    [len].  The exit code is 0 in every case. *)
Theorem test_stdin_by_content_kind (w : world) (r : response)
    (v x : pyval) :
  writes_markers (stdout_codec w) ->
  post_reply w request2 = Ok r -> status_code r = 200 ->
  json r = Ok v -> content_at v = Some x ->
  TestStdin.main w =
    (mk_state
       (preamble2 ++
        [success2;
         match x with
         | PStr s =>
             lit "Response length: " ++ str_of_int (Z.of_nat (length s))
         | PList l =>
             lit "Response length: " ++ str_of_int (Z.of_nat (length l))
         | PDict d =>
             lit "Response length: " ++ str_of_int (Z.of_nat (length d))
         | _ =>
             failure_line (lit "object of type '" ++ type_name x ++
                           lit "' has no len()")
         end])
       [request2], Exit 0).
Proof.
  intros [Hc Hx'] Hp Hs Hj Hx.
  rewrite (main2_of_content w r v x Hp Hs Hj Hx), Hc.
  destruct x; cbn [py_len]; try reflexivity; report_failure.
Qed.

Lemma test_stdin_by_content_kind_witness :
  TestStdin.main (world_of (Ok (response_with PNone))) =
    (mk_state (preamble2 ++
               [success2;
                cross_mark ::
                  lit " Error: object of type 'NoneType' has no len()"])
              [request2], Exit 0) /\
  TestStdin.main
    (world_of (Ok (response_with (PList [PStr (lit "a"); PInt 2; PNone])))) =
    (mk_state (preamble2 ++ [success2; lit "Response length: 3"])
              [request2], Exit 0).
Proof.
  assert (Hm : writes_markers utf8_codec) by (split; reflexivity).
  split.
  - exact (test_stdin_by_content_kind
             (world_of (Ok (response_with PNone))) (response_with PNone)
             (body_with PNone) PNone Hm eq_refl eq_refl eq_refl eq_refl).
  - exact (test_stdin_by_content_kind
             (world_of (Ok (response_with
                              (PList [PStr (lit "a"); PInt 2; PNone]))))
             (response_with (PList [PStr (lit "a"); PInt 2; PNone]))
             (body_with (PList [PStr (lit "a"); PInt 2; PNone]))
             (PList [PStr (lit "a"); PInt 2; PNone])
             Hm eq_refl eq_refl eq_refl eq_refl).
Defined.

(** X3: a run on a 200 response looks at nothing but
    [choices[0].message.content]: on the same standard output and under
    the same [repr], two responses that carry the same content there give
    the same output and the same end of the process, whatever else their
    bodies hold. *)
Theorem only_the_content_matters (w1 w2 : world) (r1 r2 : response)
    (v1 v2 x : pyval) :
  stdout_codec w1 = stdout_codec w2 ->
  py_repr w1 = py_repr w2 ->
  status_code r1 = 200 -> status_code r2 = 200 ->
  json r1 = Ok v1 -> json r2 = Ok v2 ->
  content_at v1 = Some x -> content_at v2 = Some x ->
  (post_reply w1 request1 = Ok r1 -> post_reply w2 request1 = Ok r2 ->
   TestLargeStdin.main w1 = TestLargeStdin.main w2) /\
  (post_reply w1 request2 = Ok r1 -> post_reply w2 request2 = Ok r2 ->
   TestStdin.main w1 = TestStdin.main w2).
Proof.
  intros Hc Hr Hs1 Hs2 Hj1 Hj2 Hx1 Hx2. split; intros Hp1 Hp2.
  - rewrite (main1_of_content w1 r1 v1 x), (main1_of_content w2 r2 v2 x),
      Hc, Hr by assumption. reflexivity.
  - rewrite (main2_of_content w1 r1 v1 x), (main2_of_content w2 r2 v2 x),
      Hc by assumption. reflexivity.
Qed.

Lemma only_the_content_matters_witness :
  TestLargeStdin.main (world_of (Ok hello_response)) =
    TestLargeStdin.main (world_of (Ok hello_verbose_response)) /\
  TestStdin.main (world_of (Ok hello_response)) =
    TestStdin.main (world_of (Ok hello_verbose_response)).
Proof.
  destruct (only_the_content_matters
              (world_of (Ok hello_response))
              (world_of (Ok hello_verbose_response))
              hello_response hello_verbose_response
              hello_body hello_verbose_body (PStr (lit "hello"))
              eq_refl eq_refl eq_refl eq_refl eq_refl eq_refl eq_refl eq_refl)
    as [H1 H2].
  split; [exact (H1 eq_refl eq_refl) | exact (H2 eq_refl eq_refl)].
Defined.

(** *** Every path of a run *)

(** The paths of a run, one goal for each. *)
Ltac by_paths :=
  repeat first
    [ progress cbv beta iota delta [settle print fst snd stdout posted]
    | rewrite encode_error_Exception
    | match goal with
      | |- context [isinstance_Exception ?e] =>
          destruct (isinstance_Exception e) eqn:?
      | |- context [printable ?c ?s] =>
          destruct (printable c s) eqn:?
      end ].

Ltac paths1 w :=
  rewrite main1_eq, post_and_report1_eq;
  destruct (post_reply w request1) as [?r|?e] eqn:?;
  [ destruct (status_code r =? 200) eqn:?;
    [ destruct (can_encode (stdout_codec w) check_mark) eqn:?;
      [ destruct (json r >>= TestLargeStdin.content_excerpt w)
          as [?shown|?e] eqn:? | ]
    | destruct (can_encode (stdout_codec w) cross_mark) eqn:? ]
  | ];
  by_paths.

Ltac paths2 w :=
  rewrite main2_eq, post_and_report2_eq;
  destruct (post_reply w request2) as [?r|?e] eqn:?;
  [ destruct (status_code r =? 200) eqn:?;
    [ destruct (can_encode (stdout_codec w) check_mark) eqn:?;
      [ destruct (json r >>= TestStdin.content_length w)
          as [?n|?e] eqn:? | ]
    | destruct (can_encode (stdout_codec w) cross_mark) eqn:? ]
  | ];
  by_paths.

(** A failure line is not a success line. *)
Lemma failure_line_not_success1 s : failure_line s <> success1.
Proof. discriminate. Qed.

Lemma failure_line_not_success2 s : failure_line s <> success2.
Proof. discriminate. Qed.





(** The output of a path: the preamble and what follows it. *)
Ltac after_preamble :=
  first [ exists []; split; [reflexivity|]
        | eexists; split; [rewrite <- ?app_assoc; reflexivity|] ];
  cbn [length app].

(** X5: every run of either script prints the preamble first, whatever
    standard output can write, and then at most two more texts, one for
    each [print] that went through.  It ends either with exit code 0,
    having printed at least one text after the preamble, or on an uncaught
    exception, having printed at most one, and that exception is not an
    [Exception] or is a [UnicodeEncodeError]; no other exit code occurs. *)
Theorem output_shape (w : world) :
  (exists tail,
     stdout (fst (TestLargeStdin.main w)) = preamble1 ++ tail /\
     (length tail <= 2)%nat /\
     (snd (TestLargeStdin.main w) = Exit 0 /\ (1 <= length tail)%nat \/
      exists e, snd (TestLargeStdin.main w) = Uncaught e /\
                (length tail <= 1)%nat /\
                (isinstance_Exception e = false \/
                 exn_cls e = UnicodeEncodeError))) /\
  (exists tail,
     stdout (fst (TestStdin.main w)) = preamble2 ++ tail /\
     (length tail <= 2)%nat /\
     (snd (TestStdin.main w) = Exit 0 /\ (1 <= length tail)%nat \/
      exists e, snd (TestStdin.main w) = Uncaught e /\
                (length tail <= 1)%nat /\
                (isinstance_Exception e = false \/
                 exn_cls e = UnicodeEncodeError))).
Proof.
  split.
  - paths1 w; after_preamble; (split; [lia|]);
      first [ left; split; [reflexivity | lia]
            | right; eexists; split; [reflexivity|]; split; [lia|];
              first [ left; assumption | right; reflexivity ] ].
  - paths2 w; after_preamble; (split; [lia|]);
      first [ left; split; [reflexivity | lia]
            | right; eexists; split; [reflexivity|]; split; [lia|];
              first [ left; assumption | right; reflexivity ] ].
Qed.

(** The text right after the preamble. *)
Lemma nth_after_preamble1 tail :
  nth_error (preamble1 ++ tail) 2 = nth_error tail 0.
Proof. reflexivity. Qed.

Lemma nth_after_preamble2 tail :
  nth_error (preamble2 ++ tail) 3 = nth_error tail 0.
Proof. reflexivity. Qed.

(** The first text after the preamble is the success line, or is not. *)
Ltac first_after_preamble :=
  rewrite <- ?app_assoc;
  first [ rewrite nth_after_preamble1 | rewrite nth_after_preamble2
        | rewrite <- (app_nil_r preamble1), nth_after_preamble1
        | rewrite <- (app_nil_r preamble2), nth_after_preamble2 ];
  cbn [nth_error app];
  split;
  [ first [ intros _; split; [reflexivity|]; eexists;
            split; [reflexivity | now apply Z.eqb_eq]
          | intros [= H];
            first [ destruct (failure_line_not_success1 _ H)
                  | destruct (failure_line_not_success2 _ H) ]
          | discriminate ]
  | first [ reflexivity
          | intros [H _]; discriminate H
          | intros (_ & ? & H & _); discriminate H
          | intros (_ & ? & [= <-] & H);
            match goal with
            | E : (_ =? 200) = false |- _ => apply Z.eqb_neq in E; contradiction
            end ] ].

(** X6: the text right after the preamble is the success line exactly
    when standard output can write the check mark and the server answered
    with status 200; on any other status, when the POST raised, and on a
    standard output without the check mark, no success line is printed
    there. *)
Theorem success_line_iff_status_200 (w : world) :
  (nth_error (stdout (fst (TestLargeStdin.main w))) 2 = Some success1 <->
   can_encode (stdout_codec w) check_mark = true /\
   exists r, post_reply w request1 = Ok r /\ status_code r = 200) /\
  (nth_error (stdout (fst (TestStdin.main w))) 3 = Some success2 <->
   can_encode (stdout_codec w) check_mark = true /\
   exists r, post_reply w request2 = Ok r /\ status_code r = 200).
Proof.
  split.
  - paths1 w; first_after_preamble.
  - paths2 w; first_after_preamble.
Qed.

(** ** The excerpt and the errors of the extraction *)

(** X7: for a string content [c] that standard output can write,
    [test-large-stdin.py] prints after the success line a text of
    [13 + min(200, len(c))] characters: [Response: ], the first 200
    characters of [c], and three dots.  That is the whole content when it
    has at most 200 characters, and 213 characters when it has 200 or
    more. *)
Theorem excerpt_is_truncated_at_200 (w : world) (r : response) (v : pyval)
    (c : pystr) :
  can_encode (stdout_codec w) check_mark = true ->
  printable (stdout_codec w) (firstn 200 c) = true ->
  post_reply w request1 = Ok r -> status_code r = 200 ->
  json r = Ok v -> expected_shape v c ->
  exists line,
    stdout (fst (TestLargeStdin.main w)) = preamble1 ++ [success1; line] /\
    line = lit "Response: " ++ firstn 200 c ++ lit "..." /\
    length line = (13 + Nat.min 200 (length c))%nat /\
    ((length c <= 200)%nat -> line = lit "Response: " ++ c ++ lit "...") /\
    ((200 <= length c)%nat -> length line = 213%nat).
Proof.
  intros Hm Ht Hp Hs Hj Hc.
  rewrite (main1_of_content w r v (PStr c) Hp Hs Hj Hc), Hm.
  cbn [getitem_slice_to format_val]. rewrite slice_to_200, print_ok
    by (rewrite !printable_app, Ht; reflexivity).
  cbn [settle fst stdout]. rewrite <- app_assoc.
  exists (lit "Response: " ++ firstn 200 c ++ lit "...").
  split; [reflexivity|]. split; [reflexivity|].
  assert (Hl : length (lit "Response: " ++ firstn 200 c ++ lit "...") =
               (13 + Nat.min 200 (length c))%nat).
  { rewrite !length_app, length_firstn.
    change (length (lit "Response: ")) with 10%nat.
    change (length (lit "...")) with 3%nat. lia. }
  split; [exact Hl|]. split.
  - intros H. now rewrite firstn_all2.
  - intros H. rewrite Hl. lia.
Qed.

Lemma excerpt_is_truncated_at_200_witness :
  exists line,
    stdout (fst (TestLargeStdin.main
                   (world_of (Ok (response_with (PStr long_content)))))) =
      preamble1 ++ [success1; line] /\
    line = lit "Response: " ++ repeat 97%N 200 ++ lit "..." /\
    length line = 213%nat.
Proof.
  destruct (excerpt_is_truncated_at_200
              (world_of (Ok (response_with (PStr long_content))))
              (response_with (PStr long_content))
              (body_with (PStr long_content)) long_content
              eq_refl eq_refl eq_refl eq_refl eq_refl eq_refl)
    as [line (H1 & H2 & _ & _ & H5)].
  exists line. split; [exact H1|]. split; [exact H2|].
  apply H5. apply Nat.leb_le. reflexivity.
Defined.

(** X8: on a 200 response whose body is an object without the key
    [choices], and with a standard output that can write both markers and
    the [repr] of the key, both scripts print the success marker and then
    the failure marker with the text of the [KeyError], which is that
    [repr]; the exit code is 0. *)
Theorem missing_choices_key_is_reported (w : world) (r : response)
    (d : list (pystr * pyval)) :
  writes_markers (stdout_codec w) ->
  printable (stdout_codec w) (py_repr w (PStr (lit "choices"))) = true ->
  status_code r = 200 -> json r = Ok (PDict d) ->
  lookup (lit "choices") d = None ->
  (post_reply w request1 = Ok r ->
   TestLargeStdin.main w =
     (mk_state (preamble1 ++
                [success1; failure_line (py_repr w (PStr (lit "choices")))])
               [request1], Exit 0)) /\
  (post_reply w request2 = Ok r ->
   TestStdin.main w =
     (mk_state (preamble2 ++
                [success2; failure_line (py_repr w (PStr (lit "choices")))])
               [request2], Exit 0)).
Proof.
  intros [Hc Hx] Ht Hs Hj Hd. split; intros Hp.
  - rewrite (main1_of_parse_failure w r
               (mk_exn KeyError (py_repr w (PStr (lit "choices")))) Hp Hs Hc).
    + rewrite settle_reports by (reflexivity || assumption).
      now rewrite <- app_assoc.
    + rewrite Hj. cbn [and_then].
      unfold TestLargeStdin.content_excerpt, getitem_key. now rewrite Hd.
  - rewrite (main2_of_parse_failure w r
               (mk_exn KeyError (py_repr w (PStr (lit "choices")))) Hp Hs Hc).
    + rewrite settle_reports by (reflexivity || assumption).
      now rewrite <- app_assoc.
    + rewrite Hj. cbn [and_then].
      unfold TestStdin.content_length, getitem_key. now rewrite Hd.
Qed.

Lemma missing_choices_key_is_reported_witness :
  TestLargeStdin.main (world_of (Ok no_choices_response)) =
    (mk_state (preamble1 ++ [success1; cross_mark :: lit " Error: 'choices'"])
              [request1], Exit 0) /\
  TestStdin.main (world_of (Ok no_choices_response)) =
    (mk_state (preamble2 ++ [success2; cross_mark :: lit " Error: 'choices'"])
              [request2], Exit 0).
Proof.
  assert (Hm : writes_markers utf8_codec) by (split; reflexivity).
  destruct (missing_choices_key_is_reported
              (world_of (Ok no_choices_response)) no_choices_response
              [ (lit "error", PStr (lit "busy")) ]
              Hm eq_refl eq_refl eq_refl eq_refl)
    as [H1 H2].
  split; [exact (H1 eq_refl) | exact (H2 eq_refl)].
Defined.

(** X9: on a 200 response whose [choices] is an empty list, and with a
    standard output that can write both markers, both scripts print the
    success marker and then the failure marker with the text of the
    [IndexError], [list index out of range]; the exit code is 0. *)
Theorem empty_choices_is_reported (w : world) (r : response) (v : pyval) :
  writes_markers (stdout_codec w) ->
  status_code r = 200 -> json r = Ok v ->
  field (lit "choices") v = Some (PList []) ->
  (post_reply w request1 = Ok r ->
   TestLargeStdin.main w =
     (mk_state (preamble1 ++
                [success1; failure_line (lit "list index out of range")])
               [request1], Exit 0)) /\
  (post_reply w request2 = Ok r ->
   TestStdin.main w =
     (mk_state (preamble2 ++
                [success2; failure_line (lit "list index out of range")])
               [request2], Exit 0)).
Proof.
  intros [Hc Hx] Hs Hj Hf. apply (getitem_key_field (py_repr w)) in Hf.
  split; intros Hp.
  - rewrite (main1_of_parse_failure w r
               (mk_exn IndexError (lit "list index out of range")) Hp Hs Hc).
    + report_failure.
    + rewrite Hj. cbn [and_then].
      unfold TestLargeStdin.content_excerpt. now rewrite Hf.
  - rewrite (main2_of_parse_failure w r
               (mk_exn IndexError (lit "list index out of range")) Hp Hs Hc).
    + report_failure.
    + rewrite Hj. cbn [and_then].
      unfold TestStdin.content_length. now rewrite Hf.
Qed.

Lemma empty_choices_is_reported_witness :
  TestLargeStdin.main (world_of (Ok empty_choices_response)) =
    (mk_state (preamble1 ++
               [success1; cross_mark :: lit " Error: list index out of range"])
              [request1], Exit 0) /\
  TestStdin.main (world_of (Ok empty_choices_response)) =
    (mk_state (preamble2 ++
               [success2; cross_mark :: lit " Error: list index out of range"])
              [request2], Exit 0).
Proof.
  assert (Hm : writes_markers utf8_codec) by (split; reflexivity).
  destruct (empty_choices_is_reported
              (world_of (Ok empty_choices_response)) empty_choices_response
              (PDict [ (lit "choices", PList []) ]) Hm eq_refl eq_refl eq_refl)
    as [H1 H2].
  split; [exact (H1 eq_refl) | exact (H2 eq_refl)].
Defined.

(** ** The size of what is sent *)

Lemma body_sizes :
  len (req_body request1) = 242 /\ len (req_body request2) = 43013.
Proof. split; vm_compute; reflexivity. Qed.

(** X10: the filler is never sent whole.  The body either script posts is
    shorter than the filler and shorter than 50 KiB (242 characters in
    [test-large-stdin.py], 43013 in [test-stdin.py]), since only the first
    100 characters of the filler go into the message. *)
Theorem filler_is_never_sent_whole (w : world) :
  Forall (fun rq => len (req_body rq) = 242 /\
                    len (req_body rq) < 50 * 1024 /\
                    len (req_body rq) < len TestLargeStdin.large_content)
         (posted (fst (TestLargeStdin.main w))) /\
  Forall (fun rq => len (req_body rq) = 43013 /\
                    len (req_body rq) < 50 * 1024 /\
                    len (req_body rq) < len TestStdin.large_content)
         (posted (fst (TestStdin.main w))).
Proof.
  destruct body_sizes as [H1 H2].
  destruct filler_of_repeat as [Hf _].
  rewrite posted_main1, posted_main2.
  unfold TestLargeStdin.large_content, TestStdin.large_content.
  change (60 * 1024) with 61440. rewrite seq_mul_x, Hf.
  split; constructor; try constructor; rewrite ?H1, ?H2; lia.
Qed.

(** ** The loop over the tools *)

(** X11: the loop of [test-stdin.py] only appends.  After [k] turns the
    list is the first [k] elements of the final list, it has [min(k, 50)]
    elements, turn [k] adds [tool k] at the end and leaves the rest alone,
    and after 50 turns the list is the final one. *)
Theorem tools_grow_by_appending (k : nat) :
  tools_after k = firstn k TestStdin.large_tools /\
  len (tools_after k) = Z.min (Z.of_nat k) 50 /\
  tools_after (S k) =
    tools_after k ++
    (if (k <? 50)%nat then [TestStdin.tool (Z.of_nat k)] else []) /\
  tools_after 50 = TestStdin.large_tools.
Proof.
  assert (E : forall n, tools_after n = firstn n TestStdin.large_tools).
  { intros n. unfold tools_after.
    rewrite fold_append_map, large_tools_map. cbn [app].
    symmetry. apply firstn_map. }
  assert (L : length TestStdin.large_tools = 50%nat).
  { rewrite large_tools_map, length_map. unfold range.
    rewrite length_map, length_seq. reflexivity. }
  split; [apply E|]. split; [|split].
  - rewrite E. unfold len. rewrite length_firstn, L. lia.
  - rewrite !E. destruct (Nat.ltb_spec k 50) as [H|H].
    + assert (Hn : nth_error TestStdin.large_tools k =
                   Some (TestStdin.tool (Z.of_nat k))).
      { rewrite <- (Nat2Z.id k) at 1. apply large_tools_nth. lia. }
      clear L. revert Hn. generalize (TestStdin.tool (Z.of_nat k)).
      generalize TestStdin.large_tools. clear.
      induction k as [|k IH]; intros [|a l] t Hn; try discriminate.
      * injection Hn as ->. reflexivity.
      * cbn [nth_error] in Hn. specialize (IH l t Hn).
        change (firstn (S (S k)) (a :: l)) with (a :: firstn (S k) l).
        rewrite IH. reflexivity.
    + rewrite app_nil_r, !firstn_all2 by lia. reflexivity.
  - rewrite E. apply firstn_all2. lia.
Qed.

Lemma in_large_tools t :
  In t TestStdin.large_tools -> exists i, t = TestStdin.tool i.
Proof.
  rewrite large_tools_map. intros H. apply in_map_iff in H.
  destruct H as (i & <- & _). eauto.
Qed.

Lemma tool_description_tool i :
  tool_field (lit "description") (TestStdin.tool i) =
  Some (PStr (lit "This is a large tool description that simulates real MCP tool contexts. " ++
              repeat 120%N 500)).
Proof.
  unfold tool_field, field, TestStdin.tool. cbn [lookup]. eval_keys.
  cbn [lookup]. eval_keys. cbn [lookup]. eval_keys.
  rewrite seq_mul_x. reflexivity.
Qed.

Lemma tool_parameters_tool i :
  tool_field (lit "parameters") (TestStdin.tool i) =
  tool_field (lit "parameters") (TestStdin.tool 0).
Proof.
  unfold tool_field, field, TestStdin.tool. cbn [lookup]. eval_keys.
  cbn [lookup]. eval_keys. reflexivity.
Qed.

(** X12: any two tools of the list have the same type, the same
    572-character description and the same parameters; they are the same
    tool as soon as they have the same name. *)
Theorem tools_differ_only_in_name (t u : pyval) :
  In t TestStdin.large_tools -> In u TestStdin.large_tools ->
  tool_type t = tool_type u /\
  tool_field (lit "description") t = tool_field (lit "description") u /\
  tool_field (lit "parameters") t = tool_field (lit "parameters") u /\
  (tool_name t = tool_name u -> t = u) /\
  exists s, tool_field (lit "description") t = Some (PStr s) /\ len s = 572.
Proof.
  intros Ht Hu.
  apply in_large_tools in Ht, Hu. destruct Ht as [i ->], Hu as [j ->].
  split; [reflexivity|].
  split; [now rewrite !tool_description_tool|].
  split; [now rewrite (tool_parameters_tool i), (tool_parameters_tool j)|].
  split.
  - rewrite !tool_name_tool. intros E. injection E as E.
    apply str_of_int_inj in E. now subst j.
  - eexists. split; [apply tool_description_tool|].
    rewrite len_app, len_repeat. reflexivity.
Qed.

Lemma tools_differ_only_in_name_witness :
  tool_type (TestStdin.tool 0) = tool_type (TestStdin.tool 49) /\
  tool_field (lit "description") (TestStdin.tool 0) =
    tool_field (lit "description") (TestStdin.tool 49) /\
  tool_field (lit "parameters") (TestStdin.tool 0) =
    tool_field (lit "parameters") (TestStdin.tool 49) /\
  (tool_name (TestStdin.tool 0) = tool_name (TestStdin.tool 49) ->
   TestStdin.tool 0 = TestStdin.tool 49) /\
  exists s, tool_field (lit "description") (TestStdin.tool 0) =
              Some (PStr s) /\ len s = 572.
Proof.
  apply tools_differ_only_in_name;
    [ apply (nth_error_In _ (Z.to_nat 0)) | apply (nth_error_In _ (Z.to_nat 49)) ];
    apply large_tools_nth; lia.
Defined.

(** ** Standard output and the markers *)



(** Without the cross mark no failure line can be written. *)
Lemma no_failure_line c s :
  can_encode c cross_mark = false -> printable c (failure_line s) = true ->
  False.
Proof. intros Hx H. rewrite printable_failure_line, Hx in H. discriminate. Qed.

(** X14: on a standard output that can write neither marker, as an ASCII
    one, no run of either script gets past the preamble: whatever the
    server does, nothing more is printed and the process ends on an
    uncaught exception, never with exit code 0. *)
Theorem without_markers_every_run_fails (w : world) :
  can_encode (stdout_codec w) check_mark = false ->
  can_encode (stdout_codec w) cross_mark = false ->
  (stdout (fst (TestLargeStdin.main w)) = preamble1 /\
   exists e, snd (TestLargeStdin.main w) = Uncaught e) /\
  (stdout (fst (TestStdin.main w)) = preamble2 /\
   exists e, snd (TestStdin.main w) = Uncaught e).
Proof.
  intros Hc Hx. split.
  - destruct (TestLargeStdin.main w) as [st fin] eqn:E. revert E.
    set (claim := _ /\ _).
    paths1 w; try congruence; intros [= <- <-]; subst claim;
      try (exfalso; eapply no_failure_line; eassumption);
      (split; [reflexivity | eexists; reflexivity]).
  - destruct (TestStdin.main w) as [st fin] eqn:E. revert E.
    set (claim := _ /\ _).
    paths2 w; try congruence; intros [= <- <-]; subst claim;
      try (exfalso; eapply no_failure_line; eassumption);
      (split; [reflexivity | eexists; reflexivity]).
Qed.

Lemma without_markers_every_run_fails_witness :
  (stdout (fst (TestLargeStdin.main (ascii_world_of (Ok hello_response)))) =
     preamble1 /\
   exists e,
     snd (TestLargeStdin.main (ascii_world_of (Ok hello_response))) =
     Uncaught e) /\
  (stdout (fst (TestStdin.main (ascii_world_of (Ok hello_response)))) =
     preamble2 /\
   exists e,
     snd (TestStdin.main (ascii_world_of (Ok hello_response))) = Uncaught e).
Proof.
  exact (without_markers_every_run_fails (ascii_world_of (Ok hello_response))
           eq_refl eq_refl).
Defined.
